(** * Autopsy Pro: fragment extraction, quality scoring and deduplication

    A shallow embedding of [autopsy_pro_v3/extractor.py] together with the
    parts of [models.py], [utils.py] and [config.py] it relies on, and the
    properties of the extraction engine proved over it.

    Conventions of the embedding.
    - Python [int] is [Z]; Python [float] (the documentation ratio, clock
      readings) is the exact rational [Q]: the only float operations of the
      extractor are one division of two line counts and comparisons against
      the literals 0.15 and 0.05, on which rounded and exact arithmetic agree
      for any count below 2^50. A float read from a configuration file
      ([max_file_mb]) is a [Float.t], which also has the infinities and NaN.
    - Python [str] is [string]; a character is a code point below 256
      (Latin-1), with the Unicode classification Python gives those code
      points.
    - A [dict] is a [gmap], a [set] a [gset], a [list] a [list].
    - Libraries outside the repository ([hashlib], [ast], [re.finditer] on
      the construct patterns, the file system, the thread pool's completion
      order, the clock) are variables of the section that uses them. *)

From Stdlib Require Import ZArith QArith Ascii String List.
From stdpp Require Import gmap strings list sorting pretty.

Open Scope string_scope.
Open Scope list_scope.
Open Scope Z_scope.

(** ** Python string primitives *)

Module Str.

Definition ord (c : ascii) : N := N_of_ascii c.

Definition in_range (lo hi : N) (c : ascii) : bool :=
  ((lo <=? ord c) && (ord c <=? hi))%N.

Definition code_is (n : N) (c : ascii) : bool := (ord c =? n)%N.

(** The line boundaries of [str.splitlines] below 256:
    LF, VT, FF, CR, FS, GS, RS and NEL. *)
Definition is_linebreak (c : ascii) : bool :=
  in_range 10 13 c || in_range 28 30 c || code_is 133 c.

(** [str.isspace] on one character. *)
Definition isspace (c : ascii) : bool :=
  in_range 9 13 c || in_range 28 32 c || code_is 133 c || code_is 160 c.

(** [str.isalnum] on one character. *)
Definition isalnum (c : ascii) : bool :=
  in_range 48 57 c || in_range 65 90 c || in_range 97 122 c
  || code_is 170 c || in_range 178 179 c || code_is 181 c
  || in_range 185 186 c || in_range 188 190 c
  || in_range 192 214 c || in_range 216 246 c || in_range 248 255 c.

(** A word character of [re] on [str] patterns: alphanumeric or underscore. *)
Definition is_word (c : ascii) : bool := isalnum c || code_is 95 c.

Definition lower_char (c : ascii) : ascii :=
  if in_range 65 90 c || in_range 192 214 c || in_range 216 222 c
  then ascii_of_N (ord c + 32) else c.

(** [s.lower()] *)
Fixpoint lower (s : string) : string :=
  match s with
  | "" => ""
  | String c s' => String (lower_char c) (lower s')
  end.

(** [s.startswith(p)] *)
Definition startswith (s p : string) : bool := String.prefix p s.

(** [sub in s] *)
Fixpoint contains (sub s : string) : bool :=
  String.prefix sub s ||
  match s with
  | "" => false
  | String _ s' => contains sub s'
  end.

(** [s.count(sub)]: occurrences counted left to right without overlap.
    [skip] is the number of characters still covered by the last match. *)
Fixpoint count_from (sub : string) (skip : nat) (s : string) : Z :=
  match s with
  | "" => if decide (sub = "") then 1 else 0
  | String _ s' =>
      match skip with
      | S k => count_from sub k s'
      | O => if String.prefix sub s
             then 1 + count_from sub (Nat.pred (String.length sub)) s'
             else count_from sub 0 s'
      end
  end.

Definition count (s sub : string) : Z := count_from sub 0 s.

(** [s.lstrip()], [s.rstrip()], [s.strip()] *)
Fixpoint lstrip (s : string) : string :=
  match s with
  | "" => ""
  | String c s' => if isspace c then lstrip s' else s
  end.

Definition rstrip (s : string) : string := String.rev (lstrip (String.rev s)).

Definition strip (s : string) : string := rstrip (lstrip s).

(** Truth value of a string: non-empty. *)
Definition truthy (s : string) : bool := negb (String.eqb s "").

Definition len (s : string) : Z := Z.of_nat (String.length s).

(** [s.splitlines()]: a CR immediately followed by LF is one boundary; a
    final boundary opens no further line. *)
Fixpoint splitlines (s : string) : list string :=
  match s with
  | "" => []
  | String c s' =>
      if is_linebreak c then
        match s' with
        | String d s'' =>
            if code_is 13 c && code_is 10 d
            then "" :: splitlines s''
            else "" :: splitlines s'
        | "" => [""]
        end
      else
        match splitlines s' with
        | [] => [String c ""]
        | l :: ls => String c l :: ls
        end
  end.

(** [sep.join(parts)] *)
Fixpoint join (sep : string) (parts : list string) : string :=
  match parts with
  | [] => ""
  | [p] => p
  | p :: ps => p +:+ sep +:+ join sep ps
  end.

(** [s.split()]: the maximal runs of non-blank characters. [cur] is the
    run being read, reversed. *)
Fixpoint split_go (cur : option string) (s : string) : list string :=
  match s with
  | "" => option_list (String.rev <$> cur)
  | String c s' =>
      if isspace c
      then option_list (String.rev <$> cur) ++ split_go None s'
      else split_go (Some (String c (default "" cur))) s'
  end.

Definition split_ws (s : string) : list string := split_go None s.

(** [s.split(sep)] for a one-character separator. *)
Fixpoint split_on (sep : ascii) (s : string) : list string :=
  match s with
  | "" => [""]
  | String c s' =>
      if Ascii.eqb c sep then "" :: split_on sep s'
      else match split_on sep s' with
           | [] => [String c ""]
           | p :: ps => String c p :: ps
           end
  end.

(** [s[:n]] and [s[n:]] for [n >= 0]. *)
Definition take (n : nat) (s : string) : string := String.substring 0 n s.

Fixpoint drop (n : nat) (s : string) : string :=
  match n, s with
  | O, _ => s
  | S k, String _ s' => drop k s'
  | S _, "" => ""
  end.

(** [s.rfind(c)], as an index from the left, for one character. *)
Fixpoint rfind_char (c : ascii) (s : string) : option nat :=
  match s with
  | "" => None
  | String d s' =>
      match rfind_char c s' with
      | Some i => Some (S i)
      | None => if Ascii.eqb d c then Some O else None
      end
  end.

(** The number of matches of [re.findall] for a pattern
    [\b(w1|...|wn)\b] whose alternatives are literal words: a match starts
    where the previous character is no word character, takes the first
    alternative that is followed by no word character, and the scan resumes
    after it. *)
Definition boundary_after (w s : string) : bool :=
  match String.get (String.length w) s with
  | Some c => negb (is_word c)
  | None => true
  end.

Definition word_at (ws : list string) (s : string) : option string :=
  List.find (fun w => String.prefix w s && boundary_after w s) ws.

Fixpoint count_words_from (ws : list string) (prev_word : bool) (skip : nat)
    (s : string) : Z :=
  match s with
  | "" => 0
  | String c s' =>
      match skip with
      | S k => count_words_from ws (is_word c) k s'
      | O =>
          match (if prev_word then None else word_at ws s) with
          | Some w =>
              1 + count_words_from ws (is_word c) (Nat.pred (String.length w)) s'
          | None => count_words_from ws (is_word c) 0 s'
          end
      end
  end.

Definition count_words (ws : list string) (s : string) : Z :=
  count_words_from ws false 0 s.

End Str.

(** ** Complexity and documentation analysis ([extractor.py]) *)

(** [x in xs] for a list of strings. *)
Definition str_in (x : string) (xs : list string) : bool := bool_decide (x ∈ xs).

(** [any(p in text for p in pats)] *)
Definition any_in (pats : list string) (text : string) : bool :=
  existsb (fun p => Str.contains p text) pats.

(** A line is kept by [if line.strip()] when stripping leaves something. *)
Definition nonblank (line : string) : bool := Str.truthy (Str.strip line).

Definition python_keywords : list string :=
  ["if"; "elif"; "else"; "for"; "while"; "except"].
Definition other_keywords : list string := ["case"; "catch"].
Definition operators : list string := ["&&"; "||"; "?"].

(** [complexity += ...] once per element of [xs]. *)
Definition sum_over {A} (f : A -> Z) (xs : list A) (acc : Z) : Z :=
  fold_left (fun c x => c + f x) xs acc.

Definition compute_complexity (code lang : string) : Z :=
  let complexity := 1 in
  if str_in lang ["py"; "python"] then
    let complexity :=
      sum_over (fun keyword => Str.count_words [keyword] code) python_keywords complexity in
    complexity + Str.count_words ["and"; "or"] code
  else
    let complexity :=
      sum_over (fun keyword => Str.count_words [keyword] code)
               (python_keywords ++ other_keywords) complexity in
    sum_over (fun operator => Str.count code operator) operators complexity.

(** The double quote, written by its code, and the docstring opener. *)
Definition dquote : string := String (ascii_of_N 34) "".
Definition triple_dquote : string := dquote +:+ dquote +:+ dquote.

(** One turn of the loop of [compute_documentation_ratio] over the state
    [(doc_lines, code_lines)]. *)
Definition doc_ratio_step (lang : string) (st : Z * Z) (line : string) : Z * Z :=
  let '(doc_lines, code_lines) := st in
  let stripped := Str.strip line in
  if negb (Str.truthy stripped) then st
  else
    let code_lines := code_lines + 1 in
    let sw := Str.startswith stripped in
    if str_in lang ["py"; "python"] then
      if sw "#" || sw triple_dquote || sw "'''"
      then (doc_lines + 1, code_lines) else (doc_lines, code_lines)
    else if str_in lang ["js"; "javascript"; "typescript"; "go"; "rust"; "java"; "c"; "cpp"] then
      if sw "//" || sw "/*" || sw "*"
      then (doc_lines + 1, code_lines) else (doc_lines, code_lines)
    else if str_in lang ["ruby"] then
      if sw "#" then (doc_lines + 1, code_lines) else (doc_lines, code_lines)
    else if str_in lang ["php"] then
      if sw "//" || sw "#" || sw "/*"
      then (doc_lines + 1, code_lines) else (doc_lines, code_lines)
    else (doc_lines, code_lines).

Definition compute_documentation_ratio (code lang : string) : Q :=
  let lines := Str.splitlines code in
  let '(doc_lines, code_lines) := fold_left (doc_ratio_step lang) lines (0, 0) in
  if 0 <? code_lines then Qred (doc_lines # Z.to_pos code_lines) else 0%Q.

(** ** The quality scorer *)

(** A value stored in the metrics dictionary. *)
Inductive value : Type :=
| VInt (z : Z)
| VFloat (q : Q)
| VBool (b : bool).

(** [a > b] on the documentation ratio. *)
Definition Qgtb (a b : Q) : bool := negb (Qle_bool a b).

Definition debug_patterns : list string :=
  ["console.log"; "print("; "println"; "fmt.println"; "debugger"].

(** The indentation loop: the widest run of leading blanks over the
    non-blank lines. *)
Definition max_indent_of (lines : list string) : Z :=
  fold_left (fun max_indent line =>
               if nonblank line
               then Z.max max_indent (Str.len line - Str.len (Str.lstrip line))
               else max_indent) lines 0.

Definition assess_quality_enhanced (code lang fragment_type : string)
    : Z * gmap string value :=
  let lines := Str.splitlines code in
  let text := Str.lower code in
  let score := 5 in
  let metrics : gmap string value := ∅ in
  (* Line count scoring *)
  let line_count := Z.of_nat (length (List.filter nonblank lines)) in
  let metrics := <["line_count" := VInt line_count]> metrics in
  let '(score, metrics) :=
    if (10 <=? line_count) && (line_count <=? 50)
    then (score + 2, <["length_score" := VInt 2]> metrics)
    else if (5 <=? line_count) && (line_count <? 10) || (50 <? line_count) && (line_count <=? 100)
    then (score + 1, <["length_score" := VInt 1]> metrics)
    else if 200 <? line_count
    then (score - 2, <["length_score" := VInt (-2)]> metrics)
    else (score, <["length_score" := VInt 0]> metrics) in
  (* Documentation ratio *)
  let doc_ratio := compute_documentation_ratio code lang in
  let metrics := <["doc_ratio" := VFloat doc_ratio]> metrics in
  let score :=
    if Qgtb doc_ratio (15 # 100) then score + 2
    else if Qgtb doc_ratio (5 # 100) then score + 1
    else score in
  (* Type hints (Python) *)
  let '(score, metrics) :=
    if str_in lang ["py"; "python"] then
      let has_types := Str.contains "->" code || Str.contains ": " code in
      (if has_types then score + 1 else score, <["has_types" := VBool has_types]> metrics)
    else (score, metrics) in
  (* TypeScript/typed code *)
  let '(score, metrics) :=
    if str_in lang ["typescript"; "ts"] then
      let has_types :=
        Str.contains ": " code || Str.contains "interface" text || Str.contains "type " text in
      (if has_types then score + 1 else score, <["has_types" := VBool has_types]> metrics)
    else (score, metrics) in
  (* Async patterns *)
  let '(score, metrics) :=
    if Str.contains "async" text || Str.contains "await" text
    then (score + 1, <["has_async" := VBool true]> metrics)
    else (score, metrics) in
  (* Error handling *)
  let has_error_handling := any_in ["try"; "catch"; "except"; "error"; "throw"] text in
  let metrics := <["has_error_handling" := VBool has_error_handling]> metrics in
  let score := if has_error_handling then score + 1 else score in
  (* Export declarations *)
  let '(score, metrics) :=
    if Str.contains "export" text
    then (score + 1, <["has_exports" := VBool true]> metrics)
    else (score, metrics) in
  (* TODO/FIXME markers *)
  let has_todos :=
    Str.contains "todo" text || Str.contains "fixme" text || Str.contains "hack" text in
  let metrics := <["has_todos" := VBool has_todos]> metrics in
  let score := if has_todos then score - 1 else score in
  (* Debug statements *)
  let has_debug := any_in debug_patterns text in
  let metrics := <["has_debug" := VBool has_debug]> metrics in
  let score := if has_debug then score - 1 else score in
  (* Tests *)
  let is_test :=
    Str.contains "test" text || Str.contains "spec" text || Str.contains "describe" text in
  let metrics := <["is_test" := VBool is_test]> metrics in
  let score :=
    if is_test && Str.contains "test" (Str.lower fragment_type) then score + 1 else score in
  (* Complexity *)
  let complexity := compute_complexity code lang in
  let metrics := <["complexity" := VInt complexity]> metrics in
  let score :=
    if 15 <? complexity then score - 2
    else if 10 <? complexity then score - 1
    else if (3 <=? complexity) && (complexity <=? 8) then score + 1
    else score in
  (* Nesting depth *)
  let max_indent := max_indent_of lines in
  let metrics := <["max_indent" := VInt max_indent]> metrics in
  let score :=
    if 24 <? max_indent then score - 2
    else if 16 <? max_indent then score - 1
    else score in
  (* Code smells *)
  let '(score, metrics) :=
    if 10 <? Str.count code "if"
    then (score - 1, <["too_many_ifs" := VBool true]> metrics)
    else (score, metrics) in
  let final_score := Z.max 1 (Z.min 10 score) in
  let metrics := <["final_score" := VInt final_score]> metrics in
  (final_score, metrics).

(** ** Data model ([models.py], [config.py]) *)

Module Project.
Record t : Type := mk {
  name : string;
  path : string;
  type : string;
  files : Z;
  size_bytes : Z;
  last_modified : Q;
  code_files : list string;
  dependencies : list string;
  frameworks : list string;
  languages : gset string;
  complexity_score : Q;
  health_score : Q
}.
End Project.

Module Fragment.
Record t : Type := mk {
  uid : string;
  name : string;
  type : string;
  file : string;
  project : string;
  code : string;
  lines : Z;
  quality : Z;
  start_line : Z;
  end_line : Z;
  dependencies : list string;
  imports : list string;
  exports : list string;
  complexity : Z;
  documentation_ratio : Q;
  has_types : bool;
  has_tests : bool;
  has_error_handling : bool;
  tags : list string;
  embedding_hash : option string;
  similar_fragments : list string
}.

(** The assignment [self.embedding_hash = h]. *)
Definition set_embedding_hash (h : string) (f : t) : t :=
  mk (uid f) (name f) (type f) (file f) (project f) (code f) (lines f)
     (quality f) (start_line f) (end_line f) (dependencies f) (imports f)
     (exports f) (complexity f) (documentation_ratio f) (has_types f)
     (has_tests f) (has_error_handling f) (tags f) (Some h)
     (similar_fragments f).
End Fragment.

(** A Python [float] as a comparison sees it: a number, an infinity or
    NaN. [json.load] delivers all of them. *)
Module Float.
Inductive t : Type :=
| Finite (q : Q)
| PosInf
| NegInf
| NaN.

(** [a <= b]: false as soon as one side is NaN. *)
Definition leb (a b : t) : bool :=
  match a, b with
  | NaN, _ | _, NaN => false
  | NegInf, _ => true
  | _, PosInf => true
  | PosInf, _ => false
  | Finite _, NegInf => false
  | Finite x, Finite y => Qle_bool x y
  end.
End Float.

Module Config.
Record t : Type := mk {
  exts : list string;
  ignore : list string;
  inactive_days : Z;
  include_active : bool;
  max_file_mb : Float.t;
  min_quality : Z;
  min_lines : Z;
  max_lines : Z;
  skip_tests : bool;
  deduplicate : bool;
  organize_by_type : bool;
  create_readme : bool;
  create_tests : bool;
  include_deps : bool;
  dark_mode : bool;
  auto_save : bool;
  parallel_scan : bool;
  max_workers : Z;
  enable_cache : bool;
  cache_ttl_hours : Z
}.

(** [Config()] with the class defaults and the lists of [__post_init__]. *)
Definition default : t :=
  mk [".py"; ".js"; ".jsx"; ".ts"; ".tsx"; ".go"; ".rs"; ".java"; ".c";
      ".cpp"; ".h"; ".hpp"; ".rb"; ".php"; ".swift"; ".kt"; ".scala"]
     [".git"; "node_modules"; "__pycache__"; "venv"; ".venv"; "env"; "build";
      "dist"; ".idea"; ".vscode"; "target"; "vendor"; ".next"; ".nuxt";
      "coverage"]
     60 false (Float.Finite 1) 5 5 500 false true true true false true false
     true true 4 true 24.

(** [issues.append(msg)] when [bad]. *)
Definition issue (bad : bool) (msg : string) (issues : list string) : list string :=
  if bad then issues ++ [msg] else issues.

(** [Config.validate]: the list of issues, in the order of the checks. *)
Definition validate (self : t) : list string :=
  let issues := [] in
  let issues := issue (inactive_days self <? 0) "inactive_days must be >= 0" issues in
  let issues :=
    issue (Float.leb (max_file_mb self) (Float.Finite 0)) "max_file_mb must be > 0"
          issues in
  let issues :=
    issue (negb ((1 <=? min_quality self) && (min_quality self <=? 10)))
          "min_quality must be between 1-10" issues in
  let issues := issue (min_lines self <? 1) "min_lines must be >= 1" issues in
  let issues :=
    issue (max_lines self <? min_lines self) "max_lines must be >= min_lines" issues in
  let issues := issue (max_workers self <? 1) "max_workers must be >= 1" issues in
  let issues := issue (cache_ttl_hours self <? 1) "cache_ttl_hours must be >= 1" issues in
  issues.
End Config.

Module ExtractionResult.
Record t : Type := mk {
  fragments : list Fragment.t;
  extraction_time : Q
}.
End ExtractionResult.

(** ** Paths ([pathlib], POSIX flavour) and [utils.py] *)

Definition nl : string := String (ascii_of_N 10) "".

Module Path.
(** The components of a path: empty ones and [.] are dropped. *)
Definition parts (p : string) : list string :=
  List.filter (fun c => negb (String.eqb c "") && negb (String.eqb c "."))
              (Str.split_on "/"%char p).

(** The root: one slash, or two when the path starts with exactly two. *)
Definition root (p : string) : string :=
  if Str.startswith p "///" then "/"
  else if Str.startswith p "//" then "//"
  else if Str.startswith p "/" then "/"
  else "".

(** [str(Path(p))] *)
Definition to_str (p : string) : string :=
  let body := Str.join "/" (parts p) in
  if String.eqb (root p +:+ body) "" then "." else root p +:+ body.

(** [Path(p).name]: the last component. *)
Definition name (p : string) : string := List.last (parts p) "".

(** [Path(p).suffix]: from the last dot of the name, unless the dot is its
    first or last character. *)
Definition suffix (p : string) : string :=
  let n := name p in
  match Str.rfind_char "."%char n with
  | Some i =>
      if (0 <? i)%nat && (i <? String.length n - 1)%nat then Str.drop i n else ""
  | None => ""
  end.
End Path.

(** What opening and reading a file under one encoding can do. *)
Inductive read_outcome : Type :=
| ReadOk (text : string)
| UnicodeDecodeError
| OtherError.

Inductive exn : Type :=
| ValueError (msg : string)
| OSError (msg : string).

(** A call either returns or raises. *)
Inductive result (A : Type) : Type :=
| Returned (a : A)
| Raised (e : exn).
Arguments Returned {A} a.
Arguments Raised {A} e.

(** Nodes of the syntax tree the extractor looks at. *)
Inductive def_kind : Type := ClassDef | AsyncFunctionDef | FunctionDef.

Inductive import_stmt : Type :=
| Import (names : list string)
| ImportFrom (module : option string).

(** A definition node met by [ast.walk(tree)]: its attributes, and the
    import statements [ast.walk(node)] meets below it, in order. *)
Record def_node : Type := mk_def {
  node_kind : def_kind;
  node_name : string;
  lineno : option Z;
  end_lineno : option Z;
  node_imports : list import_stmt
}.

(** [lines[start:end]] for [0 <= start]; a negative [end] counts from the
    end of the list. *)
Definition slice {A} (l : list A) (start end_ : Z) : list A :=
  let n := Z.of_nat (length l) in
  let stop := if end_ <? 0 then Z.max 0 (end_ + n) else Z.min end_ n in
  take (Z.to_nat (stop - start)) (drop (Z.to_nat start) l).

(** The dictionary reads of the fragment assembler, [metrics.get(k, d)]. *)
Definition get_int (m : gmap string value) (k : string) (d : Z) : Z :=
  match m !! k with Some (VInt z) => z | _ => d end.
Definition get_float (m : gmap string value) (k : string) (d : Q) : Q :=
  match m !! k with Some (VFloat q) => q | _ => d end.
Definition get_bool (m : gmap string value) (k : string) (d : bool) : bool :=
  match m !! k with Some (VBool b) => b | _ => d end.

(** [str(n)] for an integer. *)
Definition str_of_int (n : Z) : string := pretty n.

(** [if len(block_lines) < config.min_lines or len(block_lines) > config.max_lines] *)
Definition too_short_or_too_long (config : Config.t) (block_lines : list string) : bool :=
  let n := Z.of_nat (length block_lines) in
  (n <? Config.min_lines config) || (Config.max_lines config <? n).

(** *** Brace matching ([extract_js_block]) *)

(** The loop over the characters of one line: the brace depth and whether
    an opening brace was seen. *)
Fixpoint count_braces (line : string) (brace : Z) (seen_open : bool) : Z * bool :=
  match line with
  | "" => (brace, seen_open)
  | String ch rest =>
      if Ascii.eqb ch "{"%char then count_braces rest (brace + 1) true
      else if Ascii.eqb ch "}"%char then count_braces rest (brace - 1) seen_open
      else count_braces rest brace seen_open
  end.

(** The loop over the following lines, [i] being the index of the head of
    [rest]; it stops after the line that brings the depth to zero or less. *)
Fixpoint scan_block (rest : list string) (i : nat) (brace : Z)
    (block : list string) (end_line : nat) : list string * nat :=
  match rest with
  | [] => (block, end_line)
  | line :: rest' =>
      let end_line := i in
      let block := (block ++ [line])%list in
      let brace := fst (count_braces line brace false) in
      if brace <=? 0 then (block, end_line)
      else scan_block rest' (S i) brace block end_line
  end.

Definition extract_js_block (lines : list string) (start_line : nat) : string * nat :=
  match lines !! start_line with
  | None => ("", start_line)
  | Some line =>
      let '(brace, seen_open) := count_braces line 0 false in
      if negb seen_open then (line, start_line)
      else
        let stop := Nat.min (length lines) (start_line + 500) in
        let rest := take (stop - (start_line + 1)) (drop (start_line + 1) lines) in
        let '(block, end_line) := scan_block rest (start_line + 1) brace [line] start_line in
        (Str.join nl block, end_line)
  end.

(** The construct patterns of [extract_js_fragments], in order. *)
Definition patterns : list (string * string) :=
  [ ("(?:export\s+)?(?:async\s+)?function\s+(\w+)", "Function");
    ("(?:export\s+)?class\s+(\w+)", "Class");
    ("const\s+(\w+)\s*=\s*(?:async\s*)?\([^)]*\)\s*=>", "ArrowFunc");
    ("(?:export\s+)?(?:const|let|var)\s+(\w+)\s*=\s*\([^)]*\)\s*=>", "Component") ].

Definition import_pattern : string :=
  "import\s+.*?from\s+['" +:+ dquote +:+ "]([^'" +:+ dquote +:+ "]+)['" +:+ dquote +:+ "]".

(** ** The extraction pipeline ([extractor.py]) *)

(** The futures in the order in which [as_completed] yields them: at each
    step the scheduler picks one of those still pending. *)
Fixpoint as_completed_from {A} (pick : nat -> nat) (step fuel : nat)
    (pending : list A) : list A :=
  match fuel with
  | O => []
  | S fuel' =>
      let i := (pick step mod length pending)%nat in
      match pending !! i with
      | Some x => x :: as_completed_from pick (S step) fuel' (delete i pending)
      | None => []
      end
  end.

(** The sort key [(f.quality, f.lines)] and the order of tuples. *)
Definition sort_key (f : Fragment.t) : Z * Z := (Fragment.quality f, Fragment.lines f).

Definition key_ltb (a b : Z * Z) : bool :=
  (fst a <? fst b) || ((fst a =? fst b) && (snd a <? snd b)).

(** [list.sort(key=..., reverse=True)]: a stable sort, larger keys first,
    equal keys in their original order. *)
Fixpoint insert_desc (x : Fragment.t) (l : list Fragment.t) : list Fragment.t :=
  match l with
  | [] => [x]
  | y :: ys =>
      if key_ltb (sort_key x) (sort_key y) then y :: insert_desc x ys
      else x :: y :: ys
  end.

Definition sort_desc (l : list Fragment.t) : list Fragment.t :=
  foldr insert_desc [] l.

Section Extraction.

(** [hashlib.md5(s.encode()).hexdigest()] *)
Variable md5_hexdigest : string -> string.
(** [ast.parse] followed by [ast.walk], restricted to the definition nodes;
    [None] when parsing raises. *)
Variable ast_parse : string -> option (list def_node).
(** [re.finditer(pattern, s)]: start offset and group 1 of each match. *)
Variable re_finditer : string -> string -> list (nat * string).
(** [re.findall(pattern, s)] for a pattern with one group. *)
Variable re_findall : string -> string -> list string.
(** [open(path, encoding=enc).read()] *)
Variable open_read : string -> string -> read_outcome.
(** The scheduler's choice of the next completed future. *)
Variable completion : nat -> nat.
(** The two readings of [time.time()]. *)
Variables t_start t_end : Q.

(** *** [utils.py] *)

Fixpoint try_encodings (path : string) (encodings : list string) : option string :=
  match encodings with
  | [] => None
  | enc :: rest =>
      match open_read path enc with
      | ReadOk text => Some text
      | UnicodeDecodeError => try_encodings path rest
      | OtherError => None
      end
  end.

Definition safe_read_text (path encoding : string) : option string :=
  try_encodings path [encoding; "utf-8"; "latin-1"; "cp1252"].

Definition stable_uid (project filename line : string) : string :=
  let key := project +:+ ":" +:+ filename +:+ ":" +:+ line in
  Str.take 16 (md5_hexdigest key).

(** *** [Fragment] methods ([models.py]) *)

Definition code_hash (self : Fragment.t) : string := md5_hexdigest (Fragment.code self).

(** [sorted(set(words))] *)
Definition sorted_set (words : list string) : list string :=
  merge_sort String.le (remove_dups words).

Definition semantic_text (code : string) : string :=
  let normalized := Str.lower code in
  let normalized :=
    string_of_list_ascii
      (List.map (fun c => if Str.isalnum c then c else " "%char)
                (list_ascii_of_string normalized)) in
  let words := Str.split_ws normalized in
  let word_set := sorted_set words in
  Str.join " " (take 50 word_set).

(** [compute_embedding_hash]: the hash, and the fragment with the hash
    stored in it. *)
Definition compute_embedding_hash (self : Fragment.t) : string * Fragment.t :=
  let h := md5_hexdigest (semantic_text (Fragment.code self)) in
  (h, Fragment.set_embedding_hash h self).

(** *** Per-file extraction *)

Definition collect_imports (stmts : list import_stmt) : list string :=
  fold_left (fun imports imp_node =>
               match imp_node with
               | Import names => imports ++ names
               | ImportFrom (Some module) => imports ++ [module]
               | ImportFrom None => imports
               end)%list stmts [].

Definition frag_type_of (k : def_kind) : string :=
  match k with
  | ClassDef => "PythonClass"
  | AsyncFunctionDef => "PythonAsyncFunc"
  | FunctionDef => "PythonFunc"
  end.

(** The body of the loop of [extract_python_fragments] for one definition
    node: the fragment appended, if any. *)
Definition python_fragment (lines : list string) (file_path project_name : string)
    (config : Config.t) (node : def_node) : option Fragment.t :=
  let start := default 1 (lineno node) - 1 in
  let end_ := default (start + 1) (end_lineno node) in
  let n := Z.of_nat (length lines) in
  if (0 <=? start) && (start <? n) && (end_ <=? n) then
    let block_lines := slice lines start end_ in
    let block := Str.join nl block_lines in
    if too_short_or_too_long config block_lines then None
    else
      let frag_type := frag_type_of (node_kind node) in
      let imports := collect_imports (node_imports node) in
      let '(quality, metrics) := assess_quality_enhanced block "python" frag_type in
      if quality <? Config.min_quality config then None
      else
        let uid := stable_uid project_name (Path.name file_path) (str_of_int start) in
        Some {| Fragment.uid := uid;
                Fragment.name := node_name node;
                Fragment.type := frag_type;
                Fragment.file := Path.to_str file_path;
                Fragment.project := project_name;
                Fragment.code := block;
                Fragment.lines := Z.of_nat (length block_lines);
                Fragment.quality := quality;
                Fragment.start_line := start + 1;
                Fragment.end_line := end_;
                Fragment.dependencies := [];
                Fragment.imports := imports;
                Fragment.exports := [];
                Fragment.complexity := get_int metrics "complexity" 0;
                Fragment.documentation_ratio := get_float metrics "doc_ratio" 0;
                Fragment.has_types := get_bool metrics "has_types" false;
                Fragment.has_tests := get_bool metrics "is_test" false;
                Fragment.has_error_handling := get_bool metrics "has_error_handling" false;
                Fragment.tags := [];
                Fragment.embedding_hash := None;
                Fragment.similar_fragments := [] |}
  else None.

(** A parse error is caught and logged; the list built so far, which is
    empty, is returned. *)
Definition extract_python_fragments (code file_path project_name : string)
    (config : Config.t) : list Fragment.t :=
  match ast_parse code with
  | None => []
  | Some nodes =>
      let lines := Str.splitlines code in
      omap (python_fragment lines file_path project_name config) nodes
  end.

(** The body of the inner loop of [extract_js_fragments] for one match. *)
Definition js_fragment (code : string) (lines : list string)
    (file_path project_name : string) (config : Config.t) (frag_type : string)
    (m : nat * string) : option Fragment.t :=
  let name := snd m in
  let start_line := Z.to_nat (Str.count (Str.take (fst m) code) nl) in
  let '(block, end_line) := extract_js_block lines start_line in
  let block_lines := Str.splitlines block in
  if too_short_or_too_long config block_lines then None
  else
    let '(quality, metrics) := assess_quality_enhanced block "javascript" frag_type in
    if quality <? Config.min_quality config then None
    else
      let imports := re_findall import_pattern block in
      let exports := if Str.contains "export" block then [name] else [] in
      let uid :=
        stable_uid project_name (Path.name file_path) (str_of_int (Z.of_nat start_line)) in
      Some {| Fragment.uid := uid;
              Fragment.name := name;
              Fragment.type := "JS/" +:+ frag_type;
              Fragment.file := Path.to_str file_path;
              Fragment.project := project_name;
              Fragment.code := block;
              Fragment.lines := Z.of_nat (length block_lines);
              Fragment.quality := quality;
              Fragment.start_line := Z.of_nat start_line + 1;
              Fragment.end_line := Z.of_nat end_line + 1;
              Fragment.dependencies := [];
              Fragment.imports := imports;
              Fragment.exports := exports;
              Fragment.complexity := get_int metrics "complexity" 0;
              Fragment.documentation_ratio := get_float metrics "doc_ratio" 0;
              Fragment.has_types := get_bool metrics "has_types" false;
              Fragment.has_tests := false;
              Fragment.has_error_handling := get_bool metrics "has_error_handling" false;
              Fragment.tags := [];
              Fragment.embedding_hash := None;
              Fragment.similar_fragments := [] |}.

Definition extract_js_fragments (code file_path project_name : string)
    (config : Config.t) : list Fragment.t :=
  let lines := Str.splitlines code in
  concat (List.map
            (fun p : string * string =>
               omap (js_fragment code lines file_path project_name config (snd p))
                    (re_finditer (fst p) code))
            patterns).

Definition extract_from_file (file_path : string) (project : Project.t)
    (config : Config.t) : list Fragment.t :=
  match safe_read_text (Path.to_str file_path) "utf-8" with
  | None => []
  | Some code =>
      if negb (Str.truthy code) then []
      else if String.eqb (Path.suffix file_path) ".py" then
        extract_python_fragments code file_path (Project.name project) config
      else if str_in (Path.suffix file_path) [".js"; ".jsx"; ".ts"; ".tsx"] then
        extract_js_fragments code file_path (Project.name project) config
      else []
  end.

(** *** Deduplication *)

(** One turn of the loop of [deduplicate_fragments] over
    [(seen_exact, seen_semantic, unique)]. *)
Definition dedup_step (st : gset string * gset string * list Fragment.t)
    (frag : Fragment.t) : gset string * gset string * list Fragment.t :=
  let '(seen_exact, seen_semantic, unique) := st in
  if bool_decide (code_hash frag ∈ seen_exact) then st
  else
    let '(semantic_hash, frag) := compute_embedding_hash frag in
    if bool_decide (semantic_hash ∈ seen_semantic) then st
    else ({[code_hash frag]} ∪ seen_exact, {[semantic_hash]} ∪ seen_semantic,
          (unique ++ [frag])%list).

Definition deduplicate_fragments (fragments : list Fragment.t) : list Fragment.t :=
  snd (fold_left dedup_step fragments (∅, ∅, [])).

(** The semantic hash alone, and whether a fragment repeats the exact or
    the semantic hash of one of the fragments kept so far. *)
Definition semantic_hash (self : Fragment.t) : string :=
  fst (compute_embedding_hash self).

Definition duplicate_of_kept (unique : list Fragment.t) (frag : Fragment.t) : bool :=
  bool_decide (code_hash frag ∈ code_hash <$> unique)
  || bool_decide (semantic_hash frag ∈ semantic_hash <$> unique).

(** *** The orchestrator *)

(** The units of work: every file of every project, in order. *)
Definition work_units (projects : list Project.t) : list (string * Project.t) :=
  concat (List.map (fun project =>
                      List.map (fun file_path => (file_path, project))
                               (Project.code_files project)) projects).

Definition run_unit (config : Config.t) (u : string * Project.t) : list Fragment.t :=
  extract_from_file (fst u) (snd u) config.

Definition as_completed {A} (futures : list A) : list A :=
  as_completed_from completion 0 (length futures) futures.

(** [sum(len(p.code_files) for p in projects)] *)
Definition total_files (projects : list Project.t) : Z :=
  fold_left (fun acc p => acc + Z.of_nat (length (Project.code_files p))) projects 0.

Definition extract_fragments_parallel (projects : list Project.t) (config : Config.t)
    : result (list Fragment.t) :=
  let gathered :=
    if Config.parallel_scan config && (10 <? total_files projects) then
      (* ThreadPoolExecutor refuses a pool without workers *)
      if Config.max_workers config <=? 0
      then Raised (ValueError "max_workers must be greater than 0")
      else
        let futures := List.map (run_unit config) (work_units projects) in
        Returned (concat (as_completed futures))
    else
      Returned (concat (List.map (run_unit config) (work_units projects))) in
  match gathered with
  | Raised e => Raised e
  | Returned all_fragments =>
      let all_fragments :=
        if Config.deduplicate config then deduplicate_fragments all_fragments
        else all_fragments in
      let all_fragments :=
        if Config.skip_tests config
        then List.filter (fun f => negb (Fragment.has_tests f)) all_fragments
        else all_fragments in
      Returned all_fragments
  end.

Definition extract_fragments (projects : list Project.t) (config : Config.t)
    : result ExtractionResult.t :=
  let start_time := t_start in
  match extract_fragments_parallel projects config with
  | Raised e => Raised e
  | Returned fragments =>
      let fragments := sort_desc fragments in
      let extraction_time := (t_end - start_time)%Q in
      Returned (ExtractionResult.mk fragments extraction_time)
  end.

End Extraction.

(** The list a call returned; none when it raised. *)
Definition returned_of {A} (r : result (list A)) : list A :=
  match r with
  | Returned l => l
  | Raised _ => []
  end.

(** The fragments of a finished run; none when the run raised. *)
Definition fragments_of (r : result ExtractionResult.t) : list Fragment.t :=
  match r with
  | Returned res => ExtractionResult.fragments res
  | Raised _ => []
  end.

(** ** A sample run

    A small repository used to evaluate the pipeline on concrete input:
    three projects' worth of files, with the answers CPython's [ast] and
    [re] give on exactly these texts, and an injective stand-in for the
    digest. *)

Module Sample.

Definition digest (s : string) : string := s.

Definition index_a : string :=
"function testAdd(a, b) {
  const sum = a + b;
  if (sum > 10) {
    return 10;
  }
  return sum;
}
".

Definition index_b : string :=
"function render(items) {
  const out = [];
  for (const item of items) {
    out.push(item.label);
  }
  return out;
}
".

Definition util_py : string :=
"def load(path):

    data = read(path)

    return data
".

Definition broken_py : string :=
"def broken(:
    pass
".

(** The files on disk, all readable as UTF-8. *)
Definition disk : gmap string string :=
  {[ "web/a/index.js" := index_a;
     "web/b/index.js" := index_b;
     "lib/util.py" := util_py;
     "lib/broken.py" := broken_py ]}.

Definition open_read (path enc : string) : read_outcome :=
  match disk !! path with
  | Some text => ReadOk text
  | None => OtherError
  end.

(** [util_py] holds one function on lines 1 to 5; [broken_py] is a syntax
    error, as is any text not listed. *)
Definition ast_parse (code : string) : option (list def_node) :=
  if String.eqb code util_py
  then Some [mk_def FunctionDef "load" (Some 1) (Some 5) []]
  else None.

(** Only the function pattern matches the two scripts, once, at offset 0. *)
Definition re_finditer (pattern code : string) : list (nat * string) :=
  if String.eqb pattern "(?:export\s+)?(?:async\s+)?function\s+(\w+)" then
    if String.eqb code index_a then [(0%nat, "testAdd")]
    else if String.eqb code index_b then [(0%nat, "render")]
    else []
  else [].

(** No sample has an import statement. *)
Definition re_findall (pattern code : string) : list string := [].

(** Futures complete in submission order. *)
Definition completion (step : nat) : nat := 0%nat.

Definition project (name : string) (code_files : list string) : Project.t :=
  Project.mk name "." "node" (Z.of_nat (length code_files)) 0 0 code_files
             [] [] ∅ 0 0.

Definition web : Project.t := project "web" ["web/a/index.js"; "web/b/index.js"].
Definition lib : Project.t := project "lib" ["lib/broken.py"; "lib/util.py"].

Definition extract (projects : list Project.t) (config : Config.t)
    : result ExtractionResult.t :=
  extract_fragments digest ast_parse re_finditer re_findall open_read completion
                    0 1 projects config.

(** A fragment with a given quality and line count, for the ordering. *)
Definition scored (name : string) (quality lines : Z) : Fragment.t :=
  Fragment.mk name name "PythonFunc" "f.py" "p" "" lines quality 1 lines
              [] [] [] 1 0 false false false [] None [].

(** The result of the run over both projects under the defaults. *)
Definition result : ExtractionResult.t :=
  match extract [web; lib] Config.default with
  | Returned r => r
  | Raised _ => ExtractionResult.mk [] 0
  end.

(** A project large enough for the parallel path: twelve files. *)
Definition many : Project.t :=
  project "many"
    ["web/a/index.js"; "web/b/index.js"; "lib/util.py"; "lib/broken.py";
     "web/a/index.js"; "web/b/index.js"; "lib/util.py"; "lib/broken.py";
     "web/a/index.js"; "web/b/index.js"; "lib/util.py"; "lib/broken.py"].

(** The defaults without deduplication. *)
Definition keep_all : Config.t :=
  let d := Config.default in
  Config.mk (Config.exts d) (Config.ignore d) (Config.inactive_days d)
            (Config.include_active d) (Config.max_file_mb d)
            (Config.min_quality d) (Config.min_lines d) (Config.max_lines d)
            (Config.skip_tests d) false
            (Config.organize_by_type d) (Config.create_readme d)
            (Config.create_tests d) (Config.include_deps d) (Config.dark_mode d)
            (Config.auto_save d) (Config.parallel_scan d) (Config.max_workers d)
            (Config.enable_cache d) (Config.cache_ttl_hours d).

(** A fragment with a given code text, for deduplication. *)
Definition scored_code (code : string) : Fragment.t :=
  Fragment.mk "uid" "f" "PythonFunc" "f.py" "p" code 1 5 1 1
              [] [] [] 1 0 false false false [] None [].

End Sample.

(** [f] is [f0], possibly after [compute_embedding_hash] stored a hash in it. *)
Definition up_to_hash (f f0 : Fragment.t) : Prop :=
  f = f0 \/ exists h, f = Fragment.set_embedding_hash h f0.

(** The number of non-blank physical lines of a text. *)
Definition nonblank_count (code : string) : Z :=
  Z.of_nat (length (List.filter nonblank (Str.splitlines code))).

(** [a] may stand before [b] in the result: its key is the larger one, or
    the keys are equal. *)
Definition precedes (a b : Fragment.t) : Prop :=
  Fragment.quality b < Fragment.quality a
  \/ (Fragment.quality a = Fragment.quality b /\ Fragment.lines b <= Fragment.lines a).

(** No character of [s] is a line boundary. *)
Fixpoint no_linebreak (s : string) : bool :=
  match s with
  | "" => true
  | String c s' => negb (Str.is_linebreak c) && no_linebreak s'
  end.

(** The block a definition node spans. *)
Definition node_start (node : def_node) : Z := default 1 (lineno node) - 1.
Definition node_end (node : def_node) : Z :=
  default (node_start node + 1) (end_lineno node).
Definition node_block (lines : list string) (node : def_node) : list string :=
  slice lines (node_start node) (node_end node).

(** The block a pattern match opens. *)
Definition match_start (code : string) (m : nat * string) : nat :=
  Z.to_nat (Str.count (Str.take (fst m) code) nl).
Definition match_block (code : string) (m : nat * string) : string :=
  fst (extract_js_block (Str.splitlines code) (match_start code m)).

(** A fragment is built from a definition node of a Python file or from a
    pattern match of a script. *)
Inductive built (md5_hexdigest : string -> string)
    (re_findall : string -> string -> list string)
    (config : Config.t) (f : Fragment.t) : Prop :=
| built_python code file_path project_name node :
    python_fragment md5_hexdigest (Str.splitlines code) file_path project_name
                    config node = Some f ->
    built md5_hexdigest re_findall config f
| built_js code file_path project_name frag_type m :
    js_fragment md5_hexdigest re_findall code (Str.splitlines code) file_path
                project_name config frag_type m = Some f ->
    built md5_hexdigest re_findall config f.

(** The guard [0 <= start < len(lines) and end <= len(lines)]. *)
Definition node_in_range (lines : list string) (node : def_node) : bool :=
  let n := Z.of_nat (length lines) in
  (0 <=? node_start node) && (node_start node <? n) && (node_end node <=? n).

(** Whether a call raised. *)
Definition raises {A} (r : result A) : bool :=
  match r with
  | Raised _ => true
  | Returned _ => false
  end.

(** The defaults with other extraction settings. *)
Definition config_with (min_quality min_lines max_lines : Z) (skip_tests : bool)
    (max_workers : Z) : Config.t :=
  let d := Config.default in
  Config.mk (Config.exts d) (Config.ignore d) (Config.inactive_days d)
            (Config.include_active d) (Config.max_file_mb d)
            min_quality min_lines max_lines skip_tests (Config.deduplicate d)
            (Config.organize_by_type d) (Config.create_readme d)
            (Config.create_tests d) (Config.include_deps d) (Config.dark_mode d)
            (Config.auto_save d) (Config.parallel_scan d) max_workers
            (Config.enable_cache d) (Config.cache_ttl_hours d).

(** What every fragment built from a file satisfies. *)
Definition well_formed (config : Config.t) (f : Fragment.t) : Prop :=
  1 <= Fragment.quality f <= 10
  /\ Config.min_quality config <= Fragment.quality f
  /\ Config.min_lines config <= Fragment.lines f <= Config.max_lines config
  /\ 1 <= Fragment.start_line f
  /\ 1 <= Fragment.complexity f
  /\ (0 <= Fragment.documentation_ratio f)%Q
  /\ (Fragment.documentation_ratio f <= 1)%Q.

(** The words of a code text as [compute_embedding_hash] sees them: the
    lower-cased text with every non-alphanumeric character turned into a
    space, split at blanks. *)
Definition tokens (code : string) : list string :=
  Str.split_ws
    (string_of_list_ascii
       (List.map (fun c => if Str.isalnum c then c else " "%char)
                 (list_ascii_of_string (Str.lower code)))).

(** The order of sort keys in the result: the larger pair first. *)
Definition key_order (a b : Z * Z) : Prop :=
  fst b < fst a \/ (fst a = fst b /\ snd b <= snd a).

(** ** Derived views ([models.py]) *)

(** [Fragment.language]: the language inferred from the type. *)
Definition language (self : Fragment.t) : string :=
  let type_lower := Str.lower (Fragment.type self) in
  if Str.contains "python" type_lower then "Python"
  else if Str.contains "js" type_lower || Str.contains "typescript" type_lower
          || Str.contains "react" type_lower then "JavaScript/TypeScript"
  else if Str.contains "go" type_lower then "Go"
  else if Str.contains "rust" type_lower then "Rust"
  else if Str.contains "java" type_lower then "Java"
  else if Str.contains "ruby" type_lower then "Ruby"
  else if Str.contains "php" type_lower then "PHP"
  else if Str.contains "swift" type_lower then "Swift"
  else "Unknown".

(** [Fragment.file_name] *)
Definition file_name (self : Fragment.t) : string := Path.name (Fragment.file self).

(** [ExtractionResult.total_lines] *)
Definition total_lines (self : ExtractionResult.t) : Z :=
  fold_left (fun acc f => acc + Fragment.lines f) (ExtractionResult.fragments self) 0.

(** [sum(f.quality for f in fragments)] *)
Definition sum_quality (fragments : list Fragment.t) : Z :=
  fold_left (fun acc f => acc + Fragment.quality f) fragments 0.

(** [ExtractionResult.avg_quality] *)
Definition avg_quality (self : ExtractionResult.t) : Q :=
  match ExtractionResult.fragments self with
  | [] => 0
  | fragments =>
      (inject_Z (sum_quality fragments) / inject_Z (Z.of_nat (length fragments)))%Q
  end.

(** [ExtractionResult.languages] *)
Definition languages (self : ExtractionResult.t) : gset string :=
  list_to_set (language <$> ExtractionResult.fragments self).

(** ** String helpers of [utils.py] and [config.py] *)

(** [s[:k]] for any integer [k]: a negative [k] counts from the end. *)
Definition prefix_to (s : string) (k : Z) : string :=
  let n := Str.len s in
  let stop := if k <? 0 then Z.max 0 (k + n) else Z.min k n in
  Str.take (Z.to_nat stop) s.

(** [truncate_string(s, max_len, suffix)] *)
Definition truncate_string (s : string) (max_len : Z) (suffix : string) : string :=
  if Str.len s <=? max_len then s
  else prefix_to s (max_len - Str.len suffix) +:+ suffix.

(** [name.replace(char, new)] for one-character strings. *)
Fixpoint replace_char (char new : ascii) (name : string) : string :=
  match name with
  | "" => ""
  | String c rest =>
      String (if Ascii.eqb c char then new else c) (replace_char char new rest)
  end.

(** The characters [sanitize_filename] replaces. *)
Definition invalid_chars : string := "<>:" +:+ dquote +:+ "/\|?*".

(** [sanitize_filename(name)] *)
Definition sanitize_filename (name : string) : string :=
  let name :=
    fold_left (fun name char => replace_char char "_"%char name)
              (list_ascii_of_string invalid_chars) name in
  let name := if 200 <? Str.len name then Str.take 200 name else name in
  Str.strip name.





Section Directories.

(** The file system, as the operating system keeps it. *)
Variable fs : Type.
(** [Path(p).mkdir(parents=parents, exist_ok=exist_ok)] for the arguments
    [parents], [exist_ok] and [p]: the file system afterwards, or the error
    the call raises. *)
Variable mkdir : bool -> bool -> string -> fs -> result fs.
(** [Path.home()] *)
Variable home : string.




End Directories.

(** What the replacements of [sanitize_filename] do to one character. *)
Definition sanitize_char (c : ascii) : ascii :=
  if Str.contains (String c "") invalid_chars then "_"%char else c.

(** [map] over the characters of a string. *)
Fixpoint map_chars (f : ascii -> ascii) (s : string) : string :=
  match s with
  | "" => ""
  | String c rest => String (f c) (map_chars f rest)
  end.

(** A string that is empty or starts with a character that is no blank:
    what [lstrip] returns. *)
Definition starts_solid (s : string) : Prop :=
  match s with
  | "" => True
  | String c _ => Str.isspace c = false
  end.

(** [config.skip_tests = b], the override of [cmd_extract]. *)
Definition set_skip_tests (b : bool) (config : Config.t) : Config.t :=
  Config.mk (Config.exts config) (Config.ignore config) (Config.inactive_days config)
            (Config.include_active config) (Config.max_file_mb config)
            (Config.min_quality config) (Config.min_lines config)
            (Config.max_lines config) b (Config.deduplicate config)
            (Config.organize_by_type config) (Config.create_readme config)
            (Config.create_tests config) (Config.include_deps config)
            (Config.dark_mode config) (Config.auto_save config)
            (Config.parallel_scan config) (Config.max_workers config)
            (Config.enable_cache config) (Config.cache_ttl_hours config).

(** * Properties *)

(** ** The quality scorer *)

(** Names the pair an [if] of the scorer evaluates to, without a case
    analysis on its condition. *)
Ltac name_scored_pairs :=
  repeat match goal with
         | |- context [let '(_, _) := ?e in _] => destruct e
         end.

Lemma assess_quality_enhanced_clamped code lang fragment_type :
  exists score, fst (assess_quality_enhanced code lang fragment_type)
                = Z.max 1 (Z.min 10 score).
Proof.
  unfold assess_quality_enhanced. name_scored_pairs. simpl. eauto.
Qed.

(** C1. For every code text, every dialect and every fragment kind, the
    quality scorer returns an integer between 1 and 10, both included. On
    the empty text and on text made of blanks only the score is the neutral
    5; on a lone comment it is 7. *)
Theorem C1_score_in_range :
  (forall code lang fragment_type,
      1 <= fst (assess_quality_enhanced code lang fragment_type) <= 10)
  /\ fst (assess_quality_enhanced "" "python" "PythonFunc") = 5
  /\ fst (assess_quality_enhanced (nl +:+ nl +:+ nl) "python" "PythonFunc") = 5
  /\ fst (assess_quality_enhanced "   " "javascript" "Function") = 5
  /\ fst (assess_quality_enhanced "# Just a comment" "python" "PythonFunc") = 7.
Proof.
  split.
  - intros code lang fragment_type.
    destruct (assess_quality_enhanced_clamped code lang fragment_type) as [s ->].
    lia.
  - repeat split; vm_compute; reflexivity.
Qed.

(** ** Ordering of the result *)

Lemma key_ltb_false a b :
  key_ltb (sort_key a) (sort_key b) = false -> precedes a b.
Proof.
  unfold key_ltb, precedes, sort_key; simpl. intros H.
  apply orb_false_iff in H as [H1 H2].
  apply Z.ltb_ge in H1.
  apply andb_false_iff in H2 as [H2 | H2].
  - apply Z.eqb_neq in H2. lia.
  - apply Z.ltb_ge in H2. lia.
Qed.

Lemma key_ltb_true a b :
  key_ltb (sort_key a) (sort_key b) = true -> precedes b a.
Proof.
  unfold key_ltb, precedes, sort_key; simpl. intros H.
  apply orb_true_iff in H as [H | H].
  - apply Z.ltb_lt in H. lia.
  - apply andb_true_iff in H as [H1 H2].
    apply Z.eqb_eq in H1. apply Z.ltb_lt in H2. lia.
Qed.

#[local] Instance precedes_trans : Transitive precedes.
Proof. intros a b c. unfold precedes. lia. Qed.

Lemma insert_desc_hd x y l :
  precedes y x -> HdRel precedes y l -> HdRel precedes y (insert_desc x l).
Proof.
  intros Hyx Hl. destruct l as [|z l]; simpl.
  - by constructor.
  - inversion_clear Hl. case_match; by constructor.
Qed.

Lemma insert_desc_sorted x l :
  Sorted precedes l -> Sorted precedes (insert_desc x l).
Proof.
  induction 1 as [|y l Hl IH Hhd]; simpl.
  - repeat constructor.
  - destruct (key_ltb (sort_key x) (sort_key y)) eqn:E.
    + constructor; [done|]. apply insert_desc_hd; [|done].
      by apply key_ltb_true.
    + constructor; [by constructor|]. constructor. by apply key_ltb_false.
Qed.

Lemma insert_desc_perm x l : insert_desc x l ≡ₚ x :: l.
Proof.
  induction l as [|y l IH]; simpl; [done|].
  case_match; [|done]. rewrite IH. apply Permutation_swap.
Qed.

Lemma sort_desc_sorted l : StronglySorted precedes (sort_desc l).
Proof.
  apply Sorted_StronglySorted; [apply _|].
  induction l as [|x l IH]; simpl; [constructor|].
  by apply insert_desc_sorted.
Qed.

Lemma sort_desc_perm l : sort_desc l ≡ₚ l.
Proof.
  induction l as [|x l IH]; simpl; [done|].
  by rewrite insert_desc_perm, IH.
Qed.

Lemma precedes_key_ltb a b :
  precedes a b -> key_ltb (sort_key a) (sort_key b) = false.
Proof.
  unfold key_ltb, precedes, sort_key; simpl. intros H.
  apply orb_false_iff. split; [apply Z.ltb_ge; lia|].
  apply andb_false_iff.
  destruct (decide (Fragment.quality a = Fragment.quality b)) as [E|E].
  - right. apply Z.ltb_ge. lia.
  - left. by apply Z.eqb_neq.
Qed.

(** An element that may stand before all of a list is inserted in front. *)
Lemma insert_desc_front x l : Forall (precedes x) l -> insert_desc x l = x :: l.
Proof.
  destruct l as [|y l]; [done|]. intros H. simpl.
  inversion_clear H. by rewrite precedes_key_ltb.
Qed.

Lemma filter_insert_desc (p : Fragment.t -> bool) x l :
  StronglySorted precedes l ->
  List.filter p (insert_desc x l)
  = if p x then insert_desc x (List.filter p l) else List.filter p l.
Proof.
  induction 1 as [|y l Hl IH Hy]; simpl.
  - by destruct (p x).
  - destruct (key_ltb (sort_key x) (sort_key y)) eqn:E; simpl.
    + rewrite IH. destruct (p y), (p x); simpl; try done. by rewrite E.
    + destruct (p x) eqn:Ex; [|done].
      rewrite insert_desc_front; [done|].
      apply key_ltb_false in E.
      assert (Hall : Forall (precedes x) (y :: l)).
      { constructor; [done|]. eapply Forall_impl; [exact Hy|].
        intros z Hz. by apply (precedes_trans x y z). }
      apply Forall_forall. intros z Hz.
      rewrite Forall_forall in Hall. apply Hall.
      change (z ∈ List.filter p (y :: l)) in Hz.
      apply list_elem_of_In, filter_In in Hz as [Hz _]. by apply list_elem_of_In.
Qed.

(** The stable sort commutes with a filter. *)
Lemma filter_sort_desc (p : Fragment.t -> bool) l :
  List.filter p (sort_desc l) = sort_desc (List.filter p l).
Proof.
  induction l as [|x l IH]; [done|].
  change (sort_desc (x :: l)) with (insert_desc x (sort_desc l)).
  rewrite filter_insert_desc by apply sort_desc_sorted.
  simpl. destruct (p x); [|done].
  change (sort_desc (x :: List.filter p l))
    with (insert_desc x (sort_desc (List.filter p l))).
  by rewrite IH.
Qed.

(** Sorting a list whose elements share one key changes nothing. *)
Lemma sort_desc_same_key l key :
  Forall (fun f => sort_key f = key) l -> sort_desc l = l.
Proof.
  induction 1 as [|x l Hx Hl IH]; [done|].
  change (sort_desc (x :: l)) with (insert_desc x (sort_desc l)).
  rewrite IH. apply insert_desc_front.
  eapply Forall_impl; [exact Hl|]. intros y Hy.
  unfold sort_key in *. unfold precedes. simplify_eq. right. split; [done|lia].
Qed.

(** The sort is stable: the fragments of one key keep their order. *)
Lemma sort_desc_stable l key :
  List.filter (fun f => bool_decide (sort_key f = key)) (sort_desc l)
  = List.filter (fun f => bool_decide (sort_key f = key)) l.
Proof.
  rewrite filter_sort_desc. apply (sort_desc_same_key _ key).
  apply Forall_forall. intros f Hf.
  apply list_elem_of_In, filter_In in Hf as [_ Hf].
  by apply bool_decide_eq_true in Hf.
Qed.

(** ** Completion order *)

Lemma as_completed_from_perm {A} (pick : nat -> nat) (pending : list A) step :
  as_completed_from pick step (length pending) pending ≡ₚ pending.
Proof.
  remember (length pending) as n eqn:Hn.
  revert pending step Hn.
  induction n as [|n IH]; intros pending step Hn; simpl.
  - by destruct pending.
  - assert (Hlt : (pick step mod length pending < length pending)%nat).
    { apply Nat.mod_upper_bound. lia. }
    destruct (lookup_lt_is_Some_2 _ _ Hlt) as [x Hx].
    rewrite Hx.
    set (i := (pick step mod length pending)%nat) in *.
    rewrite (IH (delete i pending)).
    + symmetry. by apply delete_Permutation.
    + rewrite length_delete by eauto. lia.
Qed.

(** ** Deduplication *)

Section DedupFacts.

Variable md5_hexdigest : string -> string.

Local Abbreviation chash := (code_hash md5_hexdigest).
Local Abbreviation shash := (semantic_hash md5_hexdigest).
Local Abbreviation dstep := (dedup_step md5_hexdigest).
Local Abbreviation dedup := (deduplicate_fragments md5_hexdigest).
Local Abbreviation dup_kept := (duplicate_of_kept md5_hexdigest).

Lemma code_hash_set_embedding_hash h f :
  chash (Fragment.set_embedding_hash h f) = chash f.
Proof. reflexivity. Qed.

Lemma semantic_hash_set_embedding_hash h f :
  shash (Fragment.set_embedding_hash h f) = shash f.
Proof. reflexivity. Qed.

Lemma set_embedding_hash_twice h f :
  Fragment.set_embedding_hash h (Fragment.set_embedding_hash h f)
  = Fragment.set_embedding_hash h f.
Proof. reflexivity. Qed.

(** The two seen-sets hold exactly the hashes of the fragments kept. *)
Lemma dedup_state l :
  fold_left dstep l (∅, ∅, [])
  = (list_to_set (chash <$> dedup l),
     list_to_set (shash <$> dedup l),
     dedup l).
Proof.
  unfold deduplicate_fragments.
  induction l as [|x l IH] using rev_ind; [done|].
  rewrite fold_left_app; simpl. rewrite IH; simpl.
  set (u := (fold_left dstep l (∅, ∅, [])).2) in *.
  repeat case_bool_decide; simpl; try done.
  rewrite !fmap_app, !list_to_set_app_L; simpl.
  f_equal; try done. f_equal; set_solver.
Qed.

Lemma deduplicate_snoc l x :
  dedup (l ++ [x])
  = dedup l ++
    (if dup_kept (dedup l) x then []
     else [Fragment.set_embedding_hash (shash x) x]).
Proof.
  unfold deduplicate_fragments at 1.
  rewrite fold_left_app; simpl. rewrite dedup_state.
  unfold dedup_step, duplicate_of_kept; simpl.
  repeat case_bool_decide; simpl; try (by rewrite ?app_nil_r);
    exfalso; set_solver.
Qed.

Lemma deduplicate_idempotent l :
  dedup (dedup l) = dedup l.
Proof.
  induction l as [|x l IH] using rev_ind; [done|].
  rewrite deduplicate_snoc.
  destruct (dup_kept (dedup l) x) eqn:E.
  - by rewrite app_nil_r.
  - rewrite deduplicate_snoc, IH.
    unfold duplicate_of_kept in *.
    rewrite code_hash_set_embedding_hash, !semantic_hash_set_embedding_hash, E.
    by rewrite set_embedding_hash_twice.
Qed.

End DedupFacts.

(** ** Lines of a block *)



(** A line without boundary, a newline, then more text: the line is the
    first one [splitlines] yields. *)
Lemma splitlines_line_nl p r :
  no_linebreak p = true ->
  Str.splitlines (p +:+ nl +:+ r) = p :: Str.splitlines r.
Proof.
  induction p as [|c p IH]; intros Hp.
  - destruct r as [|d r]; [done|]. reflexivity.
  - simpl in Hp. apply andb_true_iff in Hp as [Hc Hp].
    apply negb_true_iff in Hc.
    change (Str.splitlines (String c p +:+ nl +:+ r)) with
      (if Str.is_linebreak c then
         match p +:+ nl +:+ r with
         | String d s'' =>
             if Str.code_is 13 c && Str.code_is 10 d
             then "" :: Str.splitlines s''
             else "" :: Str.splitlines (p +:+ nl +:+ r)
         | "" => [""]
         end
       else match Str.splitlines (p +:+ nl +:+ r) with
            | [] => [String c ""]
            | l :: ls => String c l :: ls
            end).
    by rewrite Hc, IH.
Qed.

Lemma splitlines_one_line p :
  no_linebreak p = true ->
  Str.splitlines p = if decide (p = "") then [] else [p].
Proof.
  induction p as [|c p IH]; intros Hp; [done|].
  simpl in Hp. apply andb_true_iff in Hp as [Hc Hp].
  apply negb_true_iff in Hc. simpl. rewrite Hc, (IH Hp).
  by destruct (decide (p = "")) as [->|].
Qed.

Lemma nonblank_empty : nonblank "" = false.
Proof. reflexivity. Qed.


Lemma length_splitlines_join bl :
  Forall (fun l => no_linebreak l = true) bl ->
  (length (Str.splitlines (Str.join nl bl)) <= length bl)%nat.
Proof.
  induction 1 as [|p bl Hp Hbl IH]; [done|].
  destruct bl as [|q bl].
  - simpl Str.join. rewrite splitlines_one_line by done.
    destruct (decide (p = "")); simpl; lia.
  - change (Str.join nl (p :: q :: bl)) with (p +:+ nl +:+ Str.join nl (q :: bl)).
    rewrite splitlines_line_nl by done. simpl in *. lia.
Qed.



(** ** What a fragment records *)

Section FragmentFacts.

Variable md5_hexdigest : string -> string.
Variable re_findall : string -> string -> list string.

Lemma python_fragment_Some lines file_path project_name config node f :
  python_fragment md5_hexdigest lines file_path project_name config node = Some f ->
  let block_lines := node_block lines node in
  let block := Str.join nl block_lines in
  let scored := assess_quality_enhanced block "python" (frag_type_of (node_kind node)) in
  Fragment.code f = block
  /\ Fragment.lines f = Z.of_nat (length block_lines)
  /\ too_short_or_too_long config block_lines = false
  /\ Fragment.quality f = fst scored
  /\ Config.min_quality config <= Fragment.quality f
  /\ Fragment.has_tests f = get_bool (snd scored) "is_test" false
  /\ Fragment.uid f
     = stable_uid md5_hexdigest project_name (Path.name file_path)
                  (str_of_int (node_start node))
  /\ Fragment.file f = Path.to_str file_path
  /\ Fragment.project f = project_name
  /\ Fragment.start_line f = node_start node + 1.
Proof.
  unfold python_fragment, node_block, node_end, node_start.
  destruct (_ && _); [|done].
  destruct (too_short_or_too_long _ _) eqn:Elen; [done|].
  destruct (assess_quality_enhanced _ _ _) as [quality metrics] eqn:Escore.
  destruct (quality <? Config.min_quality config) eqn:Eq; [done|].
  intros [= <-]. cbv zeta. rewrite ?Escore.
  apply Z.ltb_ge in Eq. repeat split; done.
Qed.

Lemma js_fragment_Some code file_path project_name config frag_type m f :
  js_fragment md5_hexdigest re_findall code (Str.splitlines code) file_path
              project_name config frag_type m = Some f ->
  let block := match_block code m in
  let block_lines := Str.splitlines block in
  let scored := assess_quality_enhanced block "javascript" frag_type in
  Fragment.code f = block
  /\ Fragment.lines f = Z.of_nat (length block_lines)
  /\ too_short_or_too_long config block_lines = false
  /\ Fragment.quality f = fst scored
  /\ Config.min_quality config <= Fragment.quality f
  /\ Fragment.has_tests f = false
  /\ Fragment.uid f
     = stable_uid md5_hexdigest project_name (Path.name file_path)
                  (str_of_int (Z.of_nat (match_start code m)))
  /\ Fragment.file f = Path.to_str file_path
  /\ Fragment.project f = project_name
  /\ Fragment.start_line f = Z.of_nat (match_start code m) + 1.
Proof.
  unfold js_fragment, match_block, match_start.
  destruct (extract_js_block _ _) as [block end_line] eqn:Eblock.
  destruct (too_short_or_too_long _ _) eqn:Elen; [done|].
  destruct (assess_quality_enhanced _ _ _) as [quality metrics] eqn:Escore.
  destruct (quality <? Config.min_quality config) eqn:Eq; [done|].
  intros [= <-]. cbv zeta. rewrite ?Escore.
  apply Z.ltb_ge in Eq. repeat split; done.
Qed.

End FragmentFacts.

(** ** Where the fragments of a run come from *)

Section PipelineFacts.

Variable md5_hexdigest : string -> string.
Variable ast_parse : string -> option (list def_node).
Variable re_finditer : string -> string -> list (nat * string).
Variable re_findall : string -> string -> list string.
Variable open_read : string -> string -> read_outcome.
Variable completion : nat -> nat.
Variables t_start t_end : Q.

Local Abbreviation built := (built md5_hexdigest re_findall).
Local Abbreviation from_file :=
  (extract_from_file md5_hexdigest ast_parse re_finditer re_findall open_read).
Local Abbreviation gather :=
  (extract_fragments_parallel md5_hexdigest ast_parse re_finditer re_findall
                              open_read completion).
Local Abbreviation run :=
  (extract_fragments md5_hexdigest ast_parse re_finditer re_findall open_read
                     completion t_start t_end).

Lemma extract_from_file_built file_path project config f :
  f ∈ from_file file_path project config -> built config f.
Proof.
  unfold extract_from_file.
  destruct (safe_read_text _ _ _) as [code|]; [|by intros ?%elem_of_nil].
  destruct (negb (Str.truthy code)); [by intros ?%elem_of_nil|].
  destruct (String.eqb _ _).
  - unfold extract_python_fragments.
    destruct (ast_parse code) as [nodes|]; [|by intros ?%elem_of_nil].
    intros (node & _ & Hf)%list_elem_of_omap. by eapply built_python.
  - destruct (str_in _ _); [|by intros ?%elem_of_nil].
    unfold extract_js_fragments.
    intros (fs & (p & <- & _)%in_map_iff & Hf)%list_elem_of_In%in_concat.
    apply list_elem_of_In, list_elem_of_omap in Hf as (m & _ & Hf).
    by eapply built_js.
Qed.

Lemma deduplicate_elem l f :
  f ∈ deduplicate_fragments md5_hexdigest l -> exists f0, f0 ∈ l /\ up_to_hash f f0.
Proof.
  induction l as [|x l IH] using rev_ind; [by intros ?%elem_of_nil|].
  rewrite deduplicate_snoc. intros [Hf|Hf]%elem_of_app.
  - destruct (IH Hf) as (f0 & ? & ?). exists f0. split; [set_solver|done].
  - destruct (duplicate_of_kept _ _ _); [by apply elem_of_nil in Hf|].
    apply list_elem_of_singleton in Hf as ->.
    exists x. split; [set_solver|]. right. eauto.
Qed.

(** Every fragment the orchestrator gathers was built from some file,
    up to the hash deduplication stores in it. *)
Lemma gathered_built projects config fs f :
  gather projects config = Returned fs -> f ∈ fs ->
  exists f0, built config f0 /\ up_to_hash f f0.
Proof.
  unfold extract_fragments_parallel.
  set (units := work_units projects).
  assert (Hraw : forall raw,
             raw ≡ₚ concat (List.map (run_unit md5_hexdigest ast_parse re_finditer
                                              re_findall open_read config) units) ->
             forall g, g ∈ raw -> built config g).
  { intros raw Hraw g Hg. rewrite Hraw in Hg.
    apply list_elem_of_In, in_concat in Hg as (gs & (u & <- & _)%in_map_iff & Hg).
    apply list_elem_of_In in Hg. by eapply extract_from_file_built. }
  assert (Hpost : forall raw, (forall g, g ∈ raw -> built config g) ->
             forall g,
               g ∈ (if Config.skip_tests config
                    then List.filter (fun f => negb (Fragment.has_tests f))
                           (if Config.deduplicate config
                            then deduplicate_fragments md5_hexdigest raw else raw)
                    else (if Config.deduplicate config
                          then deduplicate_fragments md5_hexdigest raw else raw)) ->
               exists f0, built config f0 /\ up_to_hash g f0).
  { intros raw Hb g Hg.
    assert (Hg' : g ∈ (if Config.deduplicate config
                       then deduplicate_fragments md5_hexdigest raw else raw)).
    { destruct (Config.skip_tests config); [|done].
      apply list_elem_of_In, filter_In in Hg as [Hg _]. by apply list_elem_of_In. }
    destruct (Config.deduplicate config).
    - apply deduplicate_elem in Hg' as (f0 & ? & ?). eauto.
    - exists g. split; [auto|by left]. }
  destruct (Config.parallel_scan config && (10 <? total_files projects)).
  - destruct (Config.max_workers config <=? 0); [done|].
    intros [= <-] Hf. eapply Hpost; [|done].
    apply Hraw. unfold as_completed.
    by rewrite as_completed_from_perm.
  - intros [= <-] Hf. eapply Hpost; [|done]. by apply Hraw.
Qed.

Lemma result_built projects config f :
  f ∈ fragments_of (run projects config) ->
  exists f0, built config f0 /\ up_to_hash f f0.
Proof.
  unfold extract_fragments.
  destruct (gather projects config) as [fs|e] eqn:E; simpl;
    [|by intros ?%elem_of_nil].
  rewrite sort_desc_perm. by eapply gathered_built.
Qed.

End PipelineFacts.

(** * The claims *)

(** C3. The fragments of every result are in descending order of the pair
    (quality, lines): of two fragments, the earlier one has the higher
    quality, or the same quality and at least as many lines. They are the
    fragments the gathering step returned, each as often as it was
    gathered, and a run returns whenever the gathering step does; fragments
    with the same quality and the same line count keep the order in which
    they were gathered. Fragments of quality 6, 9, 9 with 40, 10, 50 lines
    come out as 9/50, 9/10, 6/40. *)
Theorem C3_result_sorted md5_hexdigest ast_parse re_finditer re_findall open_read
    completion t_start t_end projects config :
  StronglySorted precedes
    (fragments_of (extract_fragments md5_hexdigest ast_parse re_finditer re_findall
                                     open_read completion t_start t_end
                                     projects config))
  /\ sort_desc [Sample.scored "a" 6 40; Sample.scored "b" 9 10; Sample.scored "c" 9 50]
     = [Sample.scored "c" 9 50; Sample.scored "b" 9 10; Sample.scored "a" 6 40]
  /\ fragments_of (extract_fragments md5_hexdigest ast_parse re_finditer re_findall
                                     open_read completion t_start t_end
                                     projects config)
     ≡ₚ returned_of (extract_fragments_parallel md5_hexdigest ast_parse re_finditer
                                                re_findall open_read completion
                                                projects config)
  /\ raises (extract_fragments md5_hexdigest ast_parse re_finditer re_findall
                               open_read completion t_start t_end projects config)
     = raises (extract_fragments_parallel md5_hexdigest ast_parse re_finditer
                                          re_findall open_read completion
                                          projects config)
  /\ (forall key,
         List.filter (fun f => bool_decide (sort_key f = key))
           (fragments_of (extract_fragments md5_hexdigest ast_parse re_finditer
                                            re_findall open_read completion
                                            t_start t_end projects config))
         = List.filter (fun f => bool_decide (sort_key f = key))
             (returned_of (extract_fragments_parallel md5_hexdigest ast_parse
                             re_finditer re_findall open_read completion
                             projects config))).
Proof.
  split; [|split; [reflexivity|]].
  - unfold extract_fragments.
    destruct (extract_fragments_parallel _ _ _ _ _ _ _ _); simpl.
    + apply sort_desc_sorted.
    + constructor.
  - unfold extract_fragments.
    destruct (extract_fragments_parallel _ _ _ _ _ _ _ _) as [gathered|e]; simpl.
    + split; [apply sort_desc_perm|]. split; [done|].
      intros key. apply sort_desc_stable.
    + repeat split; done.
Qed.

(** C5. Deduplication is idempotent: run on its own output it returns that
    output. Within one pass the first occurrence wins: a fragment is dropped
    exactly when it repeats the exact or the semantic hash of a fragment
    kept before it, and is kept, after all the earlier ones, otherwise. *)
Theorem C5_deduplicate_idempotent md5_hexdigest :
  (forall fragments,
      deduplicate_fragments md5_hexdigest (deduplicate_fragments md5_hexdigest fragments)
      = deduplicate_fragments md5_hexdigest fragments)
  /\ (forall earlier frag,
         deduplicate_fragments md5_hexdigest (earlier ++ [frag])
         = deduplicate_fragments md5_hexdigest earlier ++
           (if duplicate_of_kept md5_hexdigest
                 (deduplicate_fragments md5_hexdigest earlier) frag
            then []
            else [Fragment.set_embedding_hash (semantic_hash md5_hexdigest frag) frag])).
Proof.
  split.
  - apply deduplicate_idempotent.
  - apply deduplicate_snoc.
Qed.

(** C8. A Python file whose text fails to parse yields no fragment and
    raises nothing: [extract_python_fragments] and [extract_from_file] return
    the empty list, and the fragments gathered from a batch are those of the
    batch without that file. *)
Theorem C8_parse_failure_is_local md5_hexdigest ast_parse re_finditer re_findall
    open_read file_path project config code :
  safe_read_text open_read (Path.to_str file_path) "utf-8" = Some code ->
  Path.suffix file_path = ".py" ->
  ast_parse code = None ->
  extract_python_fragments md5_hexdigest ast_parse code file_path
                           (Project.name project) config = []
  /\ extract_from_file md5_hexdigest ast_parse re_finditer re_findall open_read
                       file_path project config = []
  /\ forall before after,
       concat (List.map (run_unit md5_hexdigest ast_parse re_finditer re_findall
                                  open_read config)
                        (before ++ (file_path, project) :: after))
       = concat (List.map (run_unit md5_hexdigest ast_parse re_finditer re_findall
                                    open_read config)
                          (before ++ after)).
Proof.
  intros Hread Hsuffix Hparse.
  assert (Hpy : extract_python_fragments md5_hexdigest ast_parse code file_path
                  (Project.name project) config = []).
  { unfold extract_python_fragments. by rewrite Hparse. }
  assert (Hfile : extract_from_file md5_hexdigest ast_parse re_finditer re_findall
                    open_read file_path project config = []).
  { unfold extract_from_file. rewrite Hread, Hsuffix. simpl.
    destruct (negb (Str.truthy code)); [done|]. by rewrite Hpy. }
  split; [done|]. split; [done|].
  intros before after.
  rewrite !map_app, !concat_app. simpl.
  unfold run_unit at 2. simpl. by rewrite Hfile.
Qed.

Lemma C8_parse_failure_is_local_witness :
  extract_python_fragments Sample.digest Sample.ast_parse Sample.broken_py
                           "lib/broken.py" (Project.name Sample.lib) Config.default = []
  /\ extract_from_file Sample.digest Sample.ast_parse Sample.re_finditer
                       Sample.re_findall Sample.open_read
                       "lib/broken.py" Sample.lib Config.default = []
  /\ forall before after,
       concat (List.map (run_unit Sample.digest Sample.ast_parse Sample.re_finditer
                                  Sample.re_findall Sample.open_read Config.default)
                        (before ++ ("lib/broken.py", Sample.lib) :: after))
       = concat (List.map (run_unit Sample.digest Sample.ast_parse Sample.re_finditer
                                    Sample.re_findall Sample.open_read Config.default)
                          (before ++ after)).
Proof.
  apply (C8_parse_failure_is_local Sample.digest Sample.ast_parse Sample.re_finditer
           Sample.re_findall Sample.open_read "lib/broken.py" Sample.lib
           Config.default Sample.broken_py); vm_compute; reflexivity.
Defined.

(** ** The line filter *)

Lemma too_short_or_too_long_false config block_lines :
  too_short_or_too_long config block_lines = false
  <-> Config.min_lines config <= Z.of_nat (length block_lines) <= Config.max_lines config.
Proof.
  unfold too_short_or_too_long.
  rewrite orb_false_iff, !Z.ltb_ge. lia.
Qed.

Lemma python_fragment_None md5_hexdigest lines file_path project_name config node :
  python_fragment md5_hexdigest lines file_path project_name config node = None
  <-> node_in_range lines node = false
      \/ too_short_or_too_long config (node_block lines node) = true
      \/ fst (assess_quality_enhanced (Str.join nl (node_block lines node)) "python"
                                      (frag_type_of (node_kind node)))
         < Config.min_quality config.
Proof.
  unfold python_fragment, node_in_range, node_block, node_end, node_start.
  destruct (_ && _); [|by split; [left|]].
  destruct (too_short_or_too_long _ _); [by split; [right; left|]|].
  destruct (assess_quality_enhanced _ _ _) as [quality metrics]; simpl.
  destruct (quality <? Config.min_quality config) eqn:Eq.
  - apply Z.ltb_lt in Eq. by split; [right; right|].
  - apply Z.ltb_ge in Eq. split; [done|]. intros [?|[?|?]]; [done|done|lia].
Qed.

Lemma js_fragment_None md5_hexdigest re_findall code file_path project_name config
    frag_type m :
  js_fragment md5_hexdigest re_findall code (Str.splitlines code) file_path
              project_name config frag_type m = None
  <-> too_short_or_too_long config (Str.splitlines (match_block code m)) = true
      \/ fst (assess_quality_enhanced (match_block code m) "javascript" frag_type)
         < Config.min_quality config.
Proof.
  unfold js_fragment, match_block, match_start.
  destruct (extract_js_block _ _) as [block end_line]; simpl.
  destruct (too_short_or_too_long _ _); [by split; [left|]|].
  destruct (assess_quality_enhanced _ _ _) as [quality metrics]; simpl.
  destruct (quality <? Config.min_quality config) eqn:Eq.
  - apply Z.ltb_lt in Eq. by split; [right|].
  - apply Z.ltb_ge in Eq. split; [done|]. intros [?|?]; [done|lia].
Qed.

(** C2, against the claim. The function of [Sample.util_py] spans five
    physical lines of which three are non-blank; with [min_lines = 5] the
    filter lets the block through and the run returns its fragment. *)
Lemma C2_blank_lines_count_for_the_filter :
  let block_lines := node_block (Str.splitlines Sample.util_py)
                                (mk_def FunctionDef "load" (Some 1) (Some 5) []) in
  Z.of_nat (length (List.filter nonblank block_lines)) = 3
  /\ Config.min_lines Config.default = 5
  /\ too_short_or_too_long Config.default block_lines = false
  /\ Fragment.name <$> fragments_of (Sample.extract [Sample.lib] Config.default)
     = ["load"].
Proof. vm_compute. repeat split; reflexivity. Qed.

(** C2, amended. In both dialects the filter discards a block exactly when
    the number of its physical lines, blank ones included, falls outside
    [min_lines, max_lines]: a block yields no fragment exactly when that
    count is out of range, or its score is below [min_quality] (or, for a
    Python node, its line span lies outside the file). *)
Theorem C2_line_filter_counts_physical_lines md5_hexdigest re_findall config :
  (forall block_lines,
      too_short_or_too_long config block_lines = false
      <-> Config.min_lines config <= Z.of_nat (length block_lines)
          <= Config.max_lines config)
  /\ (forall lines file_path project_name node,
         python_fragment md5_hexdigest lines file_path project_name config node = None
         <-> node_in_range lines node = false
             \/ ~ (Config.min_lines config
                   <= Z.of_nat (length (node_block lines node))
                   <= Config.max_lines config)
             \/ fst (assess_quality_enhanced (Str.join nl (node_block lines node))
                                             "python" (frag_type_of (node_kind node)))
                < Config.min_quality config)
  /\ (forall code file_path project_name frag_type m,
         js_fragment md5_hexdigest re_findall code (Str.splitlines code) file_path
                     project_name config frag_type m = None
         <-> ~ (Config.min_lines config
                <= Z.of_nat (length (Str.splitlines (match_block code m)))
                <= Config.max_lines config)
             \/ fst (assess_quality_enhanced (match_block code m) "javascript" frag_type)
                < Config.min_quality config).
Proof.
  split; [apply too_short_or_too_long_false|].
  split.
  - intros. rewrite python_fragment_None, <- too_short_or_too_long_false.
    by rewrite not_false_iff_true.
  - intros. rewrite js_fragment_None, <- too_short_or_too_long_false.
    by rewrite not_false_iff_true.
Qed.

(** ** The [lines] field *)





(** ** Configuration *)

Lemma issue_nil bad msg issues :
  Config.issue bad msg issues = [] <-> bad = false /\ issues = [].
Proof.
  unfold Config.issue. destruct bad.
  - split; [|by intros [? _]]. by destruct issues.
  - naive_solver.
Qed.

(** [validate] accepts a configuration exactly when every check passes. *)
Lemma validate_nil config :
  Config.validate config = []
  <-> 0 <= Config.inactive_days config
      /\ Float.leb (Config.max_file_mb config) (Float.Finite 0) = false
      /\ 1 <= Config.min_quality config <= 10
      /\ 1 <= Config.min_lines config
      /\ Config.min_lines config <= Config.max_lines config
      /\ 1 <= Config.max_workers config
      /\ 1 <= Config.cache_ttl_hours config.
Proof.
  unfold Config.validate. rewrite !issue_nil.
  rewrite negb_false_iff, andb_true_iff, !Z.ltb_ge, !Z.leb_le.
  naive_solver.
Qed.

(** The check [max_file_mb <= 0] fails for a positive number, for the
    positive infinity and for NaN. *)
Lemma float_not_le_zero x :
  Float.leb x (Float.Finite 0) = false
  <-> x = Float.NaN \/ x = Float.PosInf
      \/ exists q, x = Float.Finite q /\ (0 < q)%Q.
Proof.
  destruct x as [q| | |]; simpl.
  - rewrite <- not_true_iff_false, Qle_bool_iff. split.
    + intros H. right. right. exists q. split; [done|]. by apply Qnot_le_lt.
    + intros [?|[?|(q' & [= <-] & H)]]; try done. by apply Qlt_not_le.
  - naive_solver.
  - naive_solver.
  - naive_solver.
Qed.

Lemma extract_fragments_raises md5_hexdigest ast_parse re_finditer re_findall
    open_read completion t_start t_end projects config :
  raises (extract_fragments md5_hexdigest ast_parse re_finditer re_findall open_read
                            completion t_start t_end projects config)
  = Config.parallel_scan config && (10 <? total_files projects)
    && (Config.max_workers config <=? 0).
Proof.
  unfold extract_fragments, extract_fragments_parallel.
  destruct (Config.parallel_scan config && (10 <? total_files projects)); [|done].
  by destruct (Config.max_workers config <=? 0).
Qed.

(** C4, against the claim. A configuration with [min_quality = 0],
    [max_lines < min_lines] and [max_workers = 0] fails three checks of
    [validate], yet the run over the sample projects returns a result, an
    empty one, and raises nothing. *)
Lemma C4_invalid_config_is_not_rejected :
  Config.validate (config_with 0 5 4 false 0)
  = ["min_quality must be between 1-10"; "max_lines must be >= min_lines";
     "max_workers must be >= 1"]
  /\ raises (Sample.extract [Sample.web; Sample.lib] (config_with 0 5 4 false 0)) = false
  /\ fragments_of (Sample.extract [Sample.web; Sample.lib] (config_with 0 5 4 false 0))
     = [].
Proof. vm_compute. repeat split; reflexivity. Qed.

(** C4, amended. [Config.validate] reports every invalid configuration: its
    list of issues is empty exactly when all its checks pass, so it is not
    empty when [max_lines < min_lines], when [min_quality] is outside 1..10
    or when [max_workers < 1]. Its check of [max_file_mb] is that
    [max_file_mb <= 0] is false, which holds of a positive number, of the
    positive infinity and of NaN. The extraction entry point does not
    consult [validate]: a run returns a result for every configuration, and
    raises only when more than ten files are scanned in parallel with a
    pool of no worker. *)
Theorem C4_validation_is_not_part_of_extraction md5_hexdigest ast_parse re_finditer
    re_findall open_read completion t_start t_end :
  (forall config,
      Config.validate config = []
      <-> 0 <= Config.inactive_days config
          /\ Float.leb (Config.max_file_mb config) (Float.Finite 0) = false
          /\ 1 <= Config.min_quality config <= 10
          /\ 1 <= Config.min_lines config
          /\ Config.min_lines config <= Config.max_lines config
          /\ 1 <= Config.max_workers config
          /\ 1 <= Config.cache_ttl_hours config)
  /\ (forall config,
         Config.max_lines config < Config.min_lines config
         \/ ~ (1 <= Config.min_quality config <= 10)
         \/ Config.max_workers config < 1 ->
         Config.validate config <> [])
  /\ (forall projects config,
         raises (extract_fragments md5_hexdigest ast_parse re_finditer re_findall
                                   open_read completion t_start t_end projects config)
         = Config.parallel_scan config && (10 <? total_files projects)
           && (Config.max_workers config <=? 0))
  /\ (forall x,
         Float.leb x (Float.Finite 0) = false
         <-> x = Float.NaN \/ x = Float.PosInf
             \/ exists q, x = Float.Finite q /\ (0 < q)%Q).
Proof.
  split; [apply validate_nil|]. split; [|split].
  - intros config Hbad Hnil. apply validate_nil in Hnil. lia.
  - intros. apply extract_fragments_raises.
  - apply float_not_le_zero.
Qed.

(** ** Test fragments and identifiers *)

(** C6. With [skip_tests] on, no fragment of the result has [has_tests]
    set. A script fragment never has: [extract_js_fragments] leaves
    [has_tests] at its default, so the filter keeps every script fragment,
    also one the scorer classifies as a test. In the sample run with
    [skip_tests] on, the script function [testAdd], for which [is_test] is
    true, is returned. *)
Theorem C6_script_test_fragments_are_kept md5_hexdigest ast_parse re_finditer
    re_findall open_read completion t_start t_end :
  (forall projects config,
      Config.skip_tests config = true ->
      Forall (fun f => Fragment.has_tests f = false)
             (fragments_of (extract_fragments md5_hexdigest ast_parse re_finditer
                                              re_findall open_read completion
                                              t_start t_end projects config)))
  /\ (forall code file_path project_name config,
         Forall (fun f => Fragment.has_tests f = false)
                (extract_js_fragments md5_hexdigest re_finditer re_findall code
                                      file_path project_name config))
  /\ (fun f => (Fragment.name f, Fragment.has_tests f,
                get_bool (snd (assess_quality_enhanced (Fragment.code f)
                                                       "javascript" "Function"))
                         "is_test" false))
       <$> fragments_of (Sample.extract [Sample.web] (config_with 5 5 500 true 4))
     = [("testAdd", false, true); ("render", false, false)].
Proof.
  split; [|split].
  - intros projects config Hskip. apply Forall_forall. intros f.
    unfold extract_fragments, extract_fragments_parallel. rewrite Hskip.
    destruct (Config.parallel_scan config && (10 <? total_files projects));
      [destruct (Config.max_workers config <=? 0)|]; simpl;
      try (by intros ?%elem_of_nil);
      rewrite sort_desc_perm;
      intros [_ Hf]%list_elem_of_In%filter_In; by apply negb_true_iff.
  - intros code file_path project_name config. apply Forall_forall. intros f.
    unfold extract_js_fragments.
    intros (fs & (p & <- & _)%in_map_iff & Hf)%list_elem_of_In%in_concat.
    apply list_elem_of_In, list_elem_of_omap in Hf as (m & _ & Hf).
    by apply js_fragment_Some in Hf as (_ & _ & _ & _ & _ & -> & _).
  - vm_compute. reflexivity.
Qed.

(** C7. The uid is a function of the project name, the base name of the
    file and the start line, whatever the digest: two script fragments of
    one project whose files share a base name and whose blocks start on the
    same line carry the same uid. In the sample run the two [index.js] of
    project [web] each contribute a function starting on line 1; the two
    fragments differ and carry one uid. *)
Theorem C7_uid_ignores_the_directory md5_hexdigest re_findall :
  (forall code1 code2 file1 file2 project_name config kind1 kind2 m1 m2 f1 f2,
      js_fragment md5_hexdigest re_findall code1 (Str.splitlines code1) file1
                  project_name config kind1 m1 = Some f1 ->
      js_fragment md5_hexdigest re_findall code2 (Str.splitlines code2) file2
                  project_name config kind2 m2 = Some f2 ->
      Path.name file1 = Path.name file2 ->
      match_start code1 m1 = match_start code2 m2 ->
      Fragment.uid f1 = Fragment.uid f2)
  /\ (fun f => (Fragment.file f, Fragment.name f, Fragment.start_line f, Fragment.uid f))
       <$> fragments_of (Sample.extract [Sample.web] Config.default)
     = [("web/a/index.js", "testAdd", 1, "web:index.js:0");
        ("web/b/index.js", "render", 1, "web:index.js:0")].
Proof.
  split; [|vm_compute; reflexivity].
  intros * H1 H2 Hname Hstart.
  apply js_fragment_Some in H1 as (_ & _ & _ & _ & _ & _ & -> & _).
  apply js_fragment_Some in H2 as (_ & _ & _ & _ & _ & _ & -> & _).
  by rewrite Hname, Hstart.
Qed.

(** * Further properties of the code *)

(** ** What the scorer records *)

Lemma snd_if {A B} (c : bool) (x y : A * B) :
  snd (if c then x else y) = if c then snd x else snd y.
Proof. by destruct c. Qed.

Lemma lookup_if (c : bool) (m1 m2 : gmap string value) k :
  (if c then m1 else m2) !! k = if c then m1 !! k else m2 !! k.
Proof. by destruct c. Qed.

Lemma if_same {A} (c : bool) (x : A) : (if c then x else x) = x.
Proof. by destruct c. Qed.

(** Replaces the pair an [if] of the scorer evaluates to by a fresh score
    and the metrics map of the [if]. *)
Ltac name_score_keep_map :=
  match goal with
  | |- context [let '(_, _) := ?e in _] =>
      let s := fresh "s" in
      let m := fresh "m" in
      let E := fresh "E" in
      destruct e as [s m] eqn:E; apply (f_equal snd) in E;
      rewrite ?snd_if in E; cbn [snd] in E; subst m
  end.

Ltac read_metric :=
  repeat first
    [ rewrite lookup_if
    | rewrite lookup_insert_eq
    | rewrite lookup_insert_ne by done
    | rewrite if_same ];
  reflexivity.

Lemma assess_metrics code lang fragment_type :
  let metrics := snd (assess_quality_enhanced code lang fragment_type) in
  metrics !! "line_count" = Some (VInt (nonblank_count code))
  /\ metrics !! "doc_ratio" = Some (VFloat (compute_documentation_ratio code lang))
  /\ metrics !! "complexity" = Some (VInt (compute_complexity code lang))
  /\ metrics !! "max_indent" = Some (VInt (max_indent_of (Str.splitlines code)))
  /\ metrics !! "has_error_handling"
     = Some (VBool (any_in ["try"; "catch"; "except"; "error"; "throw"] (Str.lower code)))
  /\ metrics !! "is_test"
     = Some (VBool (Str.contains "test" (Str.lower code)
                    || Str.contains "spec" (Str.lower code)
                    || Str.contains "describe" (Str.lower code))).
Proof.
  unfold assess_quality_enhanced, nonblank_count.
  repeat name_score_keep_map. cbn [snd].
  repeat split; read_metric.
Qed.

(** ** The analyzers *)

Lemma doc_ratio_step_bounds lang st line :
  0 <= fst st <= snd st ->
  0 <= fst (doc_ratio_step lang st line) <= snd (doc_ratio_step lang st line)
  /\ snd (doc_ratio_step lang st line)
     = snd st + (if nonblank line then 1 else 0).
Proof.
  destruct st as [doc_lines code_lines]; simpl. intros H.
  unfold doc_ratio_step, nonblank.
  destruct (Str.truthy (Str.strip line)); simpl; [|lia].
  repeat case_match; simpl; lia.
Qed.

Lemma doc_ratio_fold_bounds lang lines st :
  0 <= fst st <= snd st ->
  0 <= fst (fold_left (doc_ratio_step lang) lines st)
    <= snd (fold_left (doc_ratio_step lang) lines st)
  /\ snd (fold_left (doc_ratio_step lang) lines st)
     = snd st + Z.of_nat (length (List.filter nonblank lines)).
Proof.
  revert st. induction lines as [|line lines IH]; intros st H; simpl; [lia|].
  destruct (doc_ratio_step_bounds lang st line H) as [Hb Hc].
  destruct (IH _ Hb) as [Hb' Hc']. split; [done|].
  rewrite Hc', Hc. destruct (nonblank line); simpl; lia.
Qed.

(** The counters of [compute_documentation_ratio]: the documentation lines
    are among the non-blank lines, and every non-blank line is counted. *)
Lemma doc_ratio_counters code lang :
  let st := fold_left (doc_ratio_step lang) (Str.splitlines code) (0, 0) in
  0 <= fst st <= snd st /\ snd st = nonblank_count code.
Proof.
  destruct (doc_ratio_fold_bounds lang (Str.splitlines code) (0, 0)) as [Hb Hc];
    [simpl; lia|].
  split; [done|]. rewrite Hc. unfold nonblank_count. simpl. lia.
Qed.

Lemma documentation_ratio_bounds code lang :
  (0 <= compute_documentation_ratio code lang)%Q
  /\ (compute_documentation_ratio code lang <= 1)%Q.
Proof.
  pose proof (doc_ratio_counters code lang) as H.
  unfold compute_documentation_ratio.
  destruct (fold_left _ _ _) as [doc_lines code_lines]; simpl in H.
  destruct H as [Hb _].
  destruct (0 <? code_lines) eqn:Epos; [|split; done].
  apply Z.ltb_lt in Epos.
  rewrite Qred_correct. unfold Qle; simpl.
  rewrite Z2Pos.id by done. lia.
Qed.

Lemma documentation_ratio_blank code lang :
  nonblank_count code = 0 -> compute_documentation_ratio code lang = 0%Q.
Proof.
  intros Hzero. pose proof (doc_ratio_counters code lang) as H.
  unfold compute_documentation_ratio.
  destruct (fold_left _ _ _) as [doc_lines code_lines]; simpl in H.
  destruct H as [_ Hc]. rewrite Hc, Hzero. reflexivity.
Qed.

(** X1. The documentation ratio is a proportion: it lies between 0 and 1
    for every text and every dialect, and it is exactly 0 when the text has
    no non-blank line. *)
Theorem documentation_ratio_is_a_proportion :
  (forall code lang,
      (0 <= compute_documentation_ratio code lang)%Q
      /\ (compute_documentation_ratio code lang <= 1)%Q)
  /\ (forall code lang,
         nonblank_count code = 0 -> compute_documentation_ratio code lang = 0%Q).
Proof.
  split.
  - apply documentation_ratio_bounds.
  - apply documentation_ratio_blank.
Qed.

Lemma count_from_nonneg sub skip s : 0 <= Str.count_from sub skip s.
Proof.
  revert skip. induction s as [|c s IH]; intros skip; simpl.
  - case_decide; lia.
  - destruct skip; [|apply IH].
    case_match; [specialize (IH (Nat.pred (String.length sub)))|specialize (IH 0%nat)];
      lia.
Qed.

Lemma count_words_from_nonneg ws prev skip s :
  0 <= Str.count_words_from ws prev skip s.
Proof.
  revert prev skip. induction s as [|c s IH]; intros prev skip; simpl; [lia|].
  destruct skip; [|apply IH].
  case_match.
  - specialize (IH (Str.is_word c) (Nat.pred (String.length s0))). lia.
  - apply IH.
Qed.

Lemma sum_over_ge {A} (f : A -> Z) xs acc :
  (forall x, 0 <= f x) -> acc <= sum_over f xs acc.
Proof.
  intros Hf. unfold sum_over. revert acc.
  induction xs as [|x xs IH]; intros acc; simpl; [lia|].
  specialize (IH (acc + f x)). specialize (Hf x). lia.
Qed.

Lemma compute_complexity_ge_1 code lang : 1 <= compute_complexity code lang.
Proof.
  unfold compute_complexity.
  destruct (str_in lang ["py"; "python"]).
  - pose proof (sum_over_ge (fun keyword => Str.count_words [keyword] code)
                  python_keywords 1
                  (fun k => count_words_from_nonneg [k] false 0 code)).
    pose proof (count_words_from_nonneg ["and"; "or"] false 0 code).
    unfold Str.count_words in *. lia.
  - pose proof (sum_over_ge (fun keyword => Str.count_words [keyword] code)
                  (python_keywords ++ other_keywords) 1
                  (fun k => count_words_from_nonneg [k] false 0 code)).
    etrans; [exact H|].
    apply sum_over_ge. intros op. apply count_from_nonneg.
Qed.

(** X2. The complexity estimate never goes below its base value 1, for any
    text in any dialect, and it is exactly 1 for the empty text. *)
Theorem complexity_at_least_one :
  (forall code lang, 1 <= compute_complexity code lang)
  /\ (forall lang, compute_complexity "" lang = 1).
Proof.
  split.
  - apply compute_complexity_ge_1.
  - intros lang. unfold compute_complexity.
    by destruct (str_in lang ["py"; "python"]).
Qed.

(** ** Invariants of the fragments of a run *)

Lemma python_fragment_fields md5_hexdigest lines file_path project_name config node f :
  python_fragment md5_hexdigest lines file_path project_name config node = Some f ->
  Fragment.type f = frag_type_of (node_kind node)
  /\ Fragment.quality f
     = fst (assess_quality_enhanced (Fragment.code f) "python" (Fragment.type f))
  /\ Fragment.complexity f = compute_complexity (Fragment.code f) "python"
  /\ Fragment.documentation_ratio f
     = compute_documentation_ratio (Fragment.code f) "python"
  /\ 0 <= node_start node
  /\ Fragment.embedding_hash f = None.
Proof.
  unfold python_fragment, node_start.
  destruct (_ && _) eqn:Erange; [|done].
  destruct (too_short_or_too_long _ _); [done|].
  destruct (assess_quality_enhanced _ _ _) as [quality metrics] eqn:Escore.
  destruct (quality <? Config.min_quality config); [done|].
  intros [= <-]. cbn [Fragment.type Fragment.quality Fragment.code
                      Fragment.complexity Fragment.documentation_ratio
                      Fragment.embedding_hash].
  rewrite Escore.
  pose proof (assess_metrics
                (Str.join nl (slice lines (default 1 (lineno node) - 1)
                                (default (default 1 (lineno node) - 1 + 1)
                                         (end_lineno node))))
                "python" (frag_type_of (node_kind node))) as Hm.
  rewrite Escore in Hm. cbn [snd] in Hm.
  destruct Hm as (_ & Hd & Hc & _).
  unfold get_int, get_float. rewrite Hd, Hc.
  apply andb_true_iff in Erange as [Erange _].
  apply andb_true_iff in Erange as [Erange _].
  apply Z.leb_le in Erange. done.
Qed.

Lemma js_fragment_fields md5_hexdigest re_findall code lines file_path project_name
    config frag_type m f :
  js_fragment md5_hexdigest re_findall code lines file_path project_name config
              frag_type m = Some f ->
  Fragment.type f = "JS/" +:+ frag_type
  /\ Fragment.quality f
     = fst (assess_quality_enhanced (Fragment.code f) "javascript" frag_type)
  /\ Fragment.complexity f = compute_complexity (Fragment.code f) "javascript"
  /\ Fragment.documentation_ratio f
     = compute_documentation_ratio (Fragment.code f) "javascript"
  /\ Fragment.embedding_hash f = None.
Proof.
  unfold js_fragment.
  destruct (extract_js_block _ _) as [block end_line].
  destruct (too_short_or_too_long _ _); [done|].
  destruct (assess_quality_enhanced _ _ _) as [quality metrics] eqn:Escore.
  destruct (quality <? Config.min_quality config); [done|].
  intros [= <-]. cbn [Fragment.type Fragment.quality Fragment.code
                      Fragment.complexity Fragment.documentation_ratio
                      Fragment.embedding_hash].
  rewrite Escore.
  pose proof (assess_metrics block "javascript" frag_type) as Hm.
  rewrite Escore in Hm. cbn [snd] in Hm.
  destruct Hm as (_ & Hd & Hc & _).
  unfold get_int, get_float. by rewrite Hd, Hc.
Qed.

Lemma score_in_range code lang fragment_type :
  1 <= fst (assess_quality_enhanced code lang fragment_type) <= 10.
Proof.
  destruct (assess_quality_enhanced_clamped code lang fragment_type) as [s ->]. lia.
Qed.

Lemma built_well_formed md5_hexdigest re_findall config f :
  built md5_hexdigest re_findall config f -> well_formed config f.
Proof.
  pose proof documentation_ratio_bounds as Hratio.
  pose proof compute_complexity_ge_1 as Hcomplexity.
  intros [code file_path project_name node H|code file_path project_name frag_type m H].
  - pose proof (python_fragment_fields _ _ _ _ _ _ _ H)
      as (_ & Hq & Hc & Hd & Hstart & _).
    apply python_fragment_Some in H
      as (_ & Hl & Hlen%too_short_or_too_long_false & _ & Hmin & _ & _ & _ & _ & Hs).
    unfold well_formed. rewrite Hq at 1 2. rewrite Hc, Hd, Hl, Hs.
    pose proof (score_in_range (Fragment.code f) "python" (Fragment.type f)).
    pose proof (Hratio (Fragment.code f) "python") as [? ?].
    pose proof (Hcomplexity (Fragment.code f) "python").
    repeat split; try done; lia.
  - pose proof (js_fragment_fields _ _ _ _ _ _ _ _ _ _ H) as (_ & Hq & Hc & Hd & _).
    apply js_fragment_Some in H
      as (_ & Hl & Hlen%too_short_or_too_long_false & _ & Hmin & _ & _ & _ & _ & Hs).
    unfold well_formed. rewrite Hq at 1 2. rewrite Hc, Hd, Hl, Hs.
    pose proof (score_in_range (Fragment.code f) "javascript" frag_type).
    pose proof (Hratio (Fragment.code f) "javascript") as [? ?].
    pose proof (Hcomplexity (Fragment.code f) "javascript").
    repeat split; try done; lia.
Qed.

Lemma up_to_hash_well_formed config f f0 :
  up_to_hash f f0 -> well_formed config f0 -> well_formed config f.
Proof. by intros [->|[h ->]]. Qed.

Lemma result_well_formed md5_hexdigest ast_parse re_finditer re_findall
    open_read completion t_start t_end projects config f :
  f ∈ fragments_of (extract_fragments md5_hexdigest ast_parse re_finditer
                                      re_findall open_read completion
                                      t_start t_end projects config) ->
  well_formed config f.
Proof.
  intros Hf.
  apply result_built in Hf as (f0 & Hb & Hf).
  eapply up_to_hash_well_formed; [done|].
  by eapply built_well_formed.
Qed.

(** X3. Every fragment of every result respects the data model and the
    thresholds of the configuration it was extracted under: its quality is
    within 1..10 and at least [min_quality], its line count is within
    [min_lines, max_lines], its start line is at least 1, its complexity at
    least 1, and its documentation ratio between 0 and 1. *)
Theorem result_fragments_well_formed md5_hexdigest ast_parse re_finditer re_findall
    open_read completion t_start t_end projects config :
  Forall (well_formed config)
         (fragments_of (extract_fragments md5_hexdigest ast_parse re_finditer
                                          re_findall open_read completion
                                          t_start t_end projects config)).
Proof.
  apply Forall_forall. intros f. apply result_well_formed.
Qed.

(** ** The brace-matching window *)

(** The scan appends a prefix of the lines it is given and stops on the
    last line it appended. *)
Lemma scan_block_prefix rest i brace block end_line :
  exists k : nat,
    (k <= length rest)%nat
    /\ scan_block rest i brace block end_line
       = (block ++ take k rest, if decide (k = 0%nat) then end_line else (i + k - 1)%nat).
Proof.
  revert i brace block end_line.
  induction rest as [|line rest IH]; intros i brace block end_line; simpl.
  - exists 0%nat. by rewrite app_nil_r.
  - destruct (fst (count_braces line brace false) <=? 0).
    + exists 1%nat. split; [lia|]. simpl. do 2 f_equal. lia.
    + destruct (IH (S i) (fst (count_braces line brace false)) (block ++ [line]) i)
        as (k & Hk & ->).
      exists (S k). split; [lia|]. simpl.
      rewrite <- app_assoc. simpl. f_equal.
      destruct (decide (k = 0%nat)) as [->|]; lia.
Qed.

(** X4. Brace matching reads a bounded window: the block returned for a
    start line is the run of file lines from the start line to the reported
    end line, joined by newlines; the end line is never before the start
    line, less than 500 lines after it, and inside the file whenever the
    start line is. *)
Theorem extract_js_block_window lines start_line :
  (start_line <= snd (extract_js_block lines start_line) < start_line + 500)%nat
  /\ ((start_line < length lines)%nat ->
      (snd (extract_js_block lines start_line) < length lines)%nat)
  /\ fst (extract_js_block lines start_line)
     = Str.join nl (take (snd (extract_js_block lines start_line) - start_line + 1)
                         (drop start_line lines)).
Proof.
  unfold extract_js_block.
  destruct (lines !! start_line) as [line|] eqn:Hline.
  - pose proof (lookup_lt_Some _ _ _ Hline) as Hlt.
    assert (Hdrop : drop start_line lines = line :: drop (S start_line) lines)
      by (by apply drop_S).
    destruct (count_braces line 0 false) as [brace seen_open].
    destruct seen_open; simpl.
    + set (stop := Nat.min (length lines) (start_line + 500)).
      set (rest := take (stop - (start_line + 1)) (drop (start_line + 1) lines)).
      destruct (scan_block_prefix rest (start_line + 1) brace [line] start_line)
        as (k & Hk & ->).
      assert (Hrest : (length rest <= stop - (start_line + 1))%nat).
      { unfold rest. rewrite length_take. lia. }
      assert (Hrest' : (length rest <= length lines - (start_line + 1))%nat).
      { unfold rest. rewrite length_take, length_drop. lia. }
      assert (Hend : (if decide (k = 0%nat) then start_line
                      else (start_line + 1 + k - 1)%nat) = (start_line + k)%nat)
        by (case_decide; lia).
      assert (Hblock : [line] ++ take k rest
                       = take (S k) (line :: drop (S start_line) lines)).
      { simpl. f_equal. unfold rest. rewrite take_take.
        replace (start_line + 1)%nat with (S start_line) by lia.
        f_equal. unfold rest in Hk. rewrite length_take in Hk. lia. }
      cbn [fst snd]. rewrite Hend, Hblock, Hdrop.
      split; [unfold stop in *; lia|]. split; [lia|].
      by replace (start_line + k - start_line + 1)%nat with (S k) by lia.
    + split; [lia|]. split; [done|].
      rewrite Hdrop. replace (start_line - start_line + 1)%nat with 1%nat by lia.
      done.
  - simpl. apply lookup_ge_None in Hline.
    split; [lia|]. split; [lia|].
    rewrite drop_ge by done. by rewrite take_nil.
Qed.

(** ** Survivors of deduplication *)

Section DedupSurvivors.

Variable md5_hexdigest : string -> string.

Local Abbreviation chash := (code_hash md5_hexdigest).
Local Abbreviation shash := (semantic_hash md5_hexdigest).
Local Abbreviation dedup := (deduplicate_fragments md5_hexdigest).
Local Abbreviation dup_kept := (duplicate_of_kept md5_hexdigest).

Lemma duplicate_of_kept_false unique frag :
  dup_kept unique frag = false ->
  chash frag ∉ chash <$> unique /\ shash frag ∉ shash <$> unique.
Proof.
  unfold duplicate_of_kept. intros [H1 H2]%orb_false_iff.
  by apply bool_decide_eq_false in H1, H2.
Qed.

Lemma duplicate_of_kept_true unique frag :
  dup_kept unique frag = true ->
  exists kept, kept ∈ unique /\ (chash kept = chash frag \/ shash kept = shash frag).
Proof.
  unfold duplicate_of_kept. intros [H|H]%orb_true_iff;
    apply bool_decide_eq_true, list_elem_of_fmap in H as (kept & ? & ?);
    exists kept; auto.
Qed.

Lemma deduplicate_hashes_NoDup l :
  NoDup (chash <$> dedup l) /\ NoDup (shash <$> dedup l).
Proof.
  induction l as [|x l [IH1 IH2]] using rev_ind; [split; constructor|].
  rewrite deduplicate_snoc.
  destruct (dup_kept (dedup l) x) eqn:E.
  - by rewrite app_nil_r.
  - apply duplicate_of_kept_false in E as [E1 E2].
    rewrite !fmap_app. simpl.
    rewrite code_hash_set_embedding_hash, semantic_hash_set_embedding_hash.
    split; apply NoDup_app; (split; [done|]); (split; [|apply NoDup_singleton]);
      intros h Hh ->%list_elem_of_singleton; done.
Qed.

Lemma deduplicate_length l : (length (dedup l) <= length l)%nat.
Proof.
  induction l as [|x l IH] using rev_ind; [done|].
  rewrite deduplicate_snoc, !length_app.
  destruct (dup_kept (dedup l) x); simpl; lia.
Qed.

Lemma deduplicate_covers l f0 :
  f0 ∈ l ->
  exists f, f ∈ dedup l /\ (chash f = chash f0 \/ shash f = shash f0).
Proof.
  induction l as [|x l IH] using rev_ind; [by intros ?%elem_of_nil|].
  rewrite deduplicate_snoc. intros [Hin | ->%list_elem_of_singleton]%elem_of_app.
  - destruct (IH Hin) as (f & Hf & Hh). exists f. split; [|done].
    apply elem_of_app. by left.
  - destruct (dup_kept (dedup l) x) eqn:E.
    + apply duplicate_of_kept_true in E as (kept & Hk & Hh).
      exists kept. split; [|done]. apply elem_of_app. by left.
    + exists (Fragment.set_embedding_hash (shash x) x).
      split; [|by left]. apply elem_of_app. right. by apply list_elem_of_singleton.
Qed.

Lemma deduplicate_head x l :
  head (dedup (x :: l)) = Some (Fragment.set_embedding_hash (shash x) x).
Proof.
  induction l as [|y l IH] using rev_ind.
  - change [x] with ([] ++ [x]). by rewrite deduplicate_snoc.
  - rewrite app_comm_cons, deduplicate_snoc.
    destruct (dedup (x :: l)); [done|]. by simpl in *.
Qed.

End DedupSurvivors.

(** X5. After deduplication no two surviving fragments share an exact hash
    or a semantic hash; the survivors are at most as many as the input;
    every input fragment is represented by a survivor with its exact or its
    semantic hash; and the first fragment of the input always survives. *)
Theorem deduplicate_survivors md5_hexdigest fragments :
  NoDup (code_hash md5_hexdigest <$> deduplicate_fragments md5_hexdigest fragments)
  /\ NoDup (semantic_hash md5_hexdigest
              <$> deduplicate_fragments md5_hexdigest fragments)
  /\ (length (deduplicate_fragments md5_hexdigest fragments) <= length fragments)%nat
  /\ Forall (fun f0 =>
               exists f, f ∈ deduplicate_fragments md5_hexdigest fragments
                         /\ (code_hash md5_hexdigest f = code_hash md5_hexdigest f0
                             \/ semantic_hash md5_hexdigest f
                                = semantic_hash md5_hexdigest f0))
            fragments
  /\ head (deduplicate_fragments md5_hexdigest fragments)
     = (fun f => Fragment.set_embedding_hash (semantic_hash md5_hexdigest f) f)
         <$> head fragments.
Proof.
  destruct (deduplicate_hashes_NoDup md5_hexdigest fragments) as [H1 H2].
  split; [done|]. split; [done|].
  split; [apply deduplicate_length|].
  split.
  - apply Forall_forall. intros f0 Hf0. by apply deduplicate_covers.
  - destruct fragments as [|x l]; [done|]. apply deduplicate_head.
Qed.

(** ** The two tiers of duplicate detection *)

Lemma semantic_text_tokens code :
  semantic_text code = Str.join " " (take 50 (sorted_set (tokens code))).
Proof. reflexivity. Qed.

#[local] Instance string_le_trans : Transitive String.le.
Proof. apply _. Qed.

#[local] Instance string_le_antisymm : AntiSymm (=) String.le.
Proof. apply _. Qed.

(** The sorted list of distinct words depends on the set of words only. *)
Lemma sorted_set_ext (words1 words2 : list string) :
  (forall w, w ∈ words1 <-> w ∈ words2) ->
  sorted_set words1 = sorted_set words2.
Proof.
  intros Hsame. unfold sorted_set.
  apply (Sorted_unique String.le).
  - apply Sorted_merge_sort, _.
  - apply Sorted_merge_sort, _.
  - rewrite !merge_sort_Permutation.
    apply NoDup_Permutation; [apply NoDup_remove_dups..|].
    intros w. by rewrite !elem_of_remove_dups.
Qed.

Lemma deduplicate_pair md5_hexdigest f1 f2 :
  deduplicate_fragments md5_hexdigest [f1; f2]
  = Fragment.set_embedding_hash (semantic_hash md5_hexdigest f1) f1 ::
    (if duplicate_of_kept md5_hexdigest
          [Fragment.set_embedding_hash (semantic_hash md5_hexdigest f1) f1] f2
     then []
     else [Fragment.set_embedding_hash (semantic_hash md5_hexdigest f2) f2]).
Proof.
  change [f1; f2] with ([f1] ++ [f2]). rewrite deduplicate_snoc.
  change [f1] with ([] ++ [f1]). by rewrite deduplicate_snoc.
Qed.

(** X6. Two fragments whose code has the same set of lower-cased
    alphanumeric words have the same semantic text, whatever the order,
    the case, the punctuation and the repetitions of the words; of two such
    fragments, and of two fragments with the same code, deduplication keeps
    the first only. *)
Theorem same_words_are_duplicates md5_hexdigest f1 f2 :
  (forall w, w ∈ tokens (Fragment.code f1) <-> w ∈ tokens (Fragment.code f2)) ->
  semantic_text (Fragment.code f1) = semantic_text (Fragment.code f2)
  /\ deduplicate_fragments md5_hexdigest [f1; f2]
     = [Fragment.set_embedding_hash (semantic_hash md5_hexdigest f1) f1].
Proof.
  intros Hsame.
  assert (Htext : semantic_text (Fragment.code f1) = semantic_text (Fragment.code f2)).
  { rewrite !semantic_text_tokens. by rewrite (sorted_set_ext _ _ Hsame). }
  split; [done|].
  rewrite deduplicate_pair.
  assert (Hdup : duplicate_of_kept md5_hexdigest
                   [Fragment.set_embedding_hash (semantic_hash md5_hexdigest f1) f1] f2
                 = true); [|by rewrite Hdup].
  unfold duplicate_of_kept. apply orb_true_iff. right.
  apply bool_decide_eq_true. simpl.
  apply list_elem_of_singleton.
  unfold semantic_hash, compute_embedding_hash. simpl. by rewrite Htext.
Qed.

Lemma same_words_are_duplicates_witness :
  semantic_text (Fragment.code (Sample.scored_code "total = price + tax"))
  = semantic_text (Fragment.code (Sample.scored_code "TAX + Price; total = (tax)"))
  /\ deduplicate_fragments Sample.digest
       [Sample.scored_code "total = price + tax";
        Sample.scored_code "TAX + Price; total = (tax)"]
     = [Fragment.set_embedding_hash
          (semantic_hash Sample.digest (Sample.scored_code "total = price + tax"))
          (Sample.scored_code "total = price + tax")].
Proof.
  apply (same_words_are_duplicates Sample.digest
           (Sample.scored_code "total = price + tax")
           (Sample.scored_code "TAX + Price; total = (tax)")).
  intros w. vm_compute tokens. set_solver.
Defined.

(** ** Completion order and the result *)

Lemma concat_Permutation {A} (ls1 ls2 : list (list A)) :
  ls1 ≡ₚ ls2 -> concat ls1 ≡ₚ concat ls2.
Proof.
  induction 1 as [|l ls1 ls2 _ IH|l1 l2 ls|ls1 ls2 ls3 _ IH1 _ IH2]; simpl.
  - done.
  - by rewrite IH.
  - rewrite !app_assoc. by rewrite (Permutation_app_comm l1 l2).
  - by rewrite IH1.
Qed.

Lemma List_filter_Permutation {A} (p : A -> bool) (l1 l2 : list A) :
  l1 ≡ₚ l2 -> List.filter p l1 ≡ₚ List.filter p l2.
Proof.
  induction 1 as [|x l1 l2 _ IH|x y l|l1 l2 l3 _ IH1 _ IH2]; simpl.
  - done.
  - destruct (p x); by rewrite IH.
  - destruct (p x), (p y); try done. apply Permutation_swap.
  - by rewrite IH1.
Qed.

(** The order of sort keys: the larger pair first. *)
#[local] Instance key_order_antisymm : AntiSymm (=) key_order.
Proof.
  intros [a1 a2] [b1 b2]. unfold key_order; simpl. intros H1 H2.
  f_equal; lia.
Qed.

Lemma sorted_keys_unique (l1 l2 : list Fragment.t) :
  l1 ≡ₚ l2 -> sort_key <$> sort_desc l1 = sort_key <$> sort_desc l2.
Proof.
  intros Hperm.
  apply (StronglySorted_unique key_order).
  - apply (StronglySorted_fmap sort_key precedes key_order); [|apply sort_desc_sorted].
    by intros a b.
  - apply (StronglySorted_fmap sort_key precedes key_order); [|apply sort_desc_sorted].
    by intros a b.
  - by rewrite !sort_desc_perm, Hperm.
Qed.

(** X7. With deduplication off, the order in which the worker pool
    completes the files does not show in the result: two runs that differ
    in the completion order only return the same fragments, each the same
    number of times, and the same sequence of (quality, lines) keys. *)
Theorem result_independent_of_completion_order md5_hexdigest ast_parse re_finditer
    re_findall open_read completion1 completion2 t_start t_end projects config :
  Config.deduplicate config = false ->
  fragments_of (extract_fragments md5_hexdigest ast_parse re_finditer re_findall
                                  open_read completion1 t_start t_end projects config)
  ≡ₚ fragments_of (extract_fragments md5_hexdigest ast_parse re_finditer re_findall
                                     open_read completion2 t_start t_end projects config)
  /\ sort_key <$> fragments_of (extract_fragments md5_hexdigest ast_parse re_finditer
                                                  re_findall open_read completion1
                                                  t_start t_end projects config)
     = sort_key <$> fragments_of (extract_fragments md5_hexdigest ast_parse re_finditer
                                                    re_findall open_read completion2
                                                    t_start t_end projects config).
Proof.
  intros Hdedup.
  unfold extract_fragments, extract_fragments_parallel. rewrite Hdedup.
  destruct (Config.parallel_scan config && (10 <? total_files projects)); [|done].
  destruct (Config.max_workers config <=? 0); [done|].
  set (futures := List.map _ (work_units projects)).
  assert (Hraw : concat (as_completed completion1 futures)
                 ≡ₚ concat (as_completed completion2 futures)).
  { apply concat_Permutation. unfold as_completed.
    by rewrite !as_completed_from_perm. }
  assert (Hpost : (if Config.skip_tests config
                   then List.filter (fun f => negb (Fragment.has_tests f))
                          (concat (as_completed completion1 futures))
                   else concat (as_completed completion1 futures))
                  ≡ₚ (if Config.skip_tests config
                      then List.filter (fun f => negb (Fragment.has_tests f))
                             (concat (as_completed completion2 futures))
                      else concat (as_completed completion2 futures))).
  { destruct (Config.skip_tests config); [|done].
    by apply List_filter_Permutation. }
  simpl. split.
  - by rewrite !sort_desc_perm.
  - by apply sorted_keys_unique.
Qed.

Lemma result_independent_of_completion_order_witness :
  fragments_of (extract_fragments Sample.digest Sample.ast_parse Sample.re_finditer
                                  Sample.re_findall Sample.open_read (fun _ => 0%nat)
                                  0 1 [Sample.many] Sample.keep_all)
  ≡ₚ fragments_of (extract_fragments Sample.digest Sample.ast_parse Sample.re_finditer
                                     Sample.re_findall Sample.open_read (fun n => n)
                                     0 1 [Sample.many] Sample.keep_all)
  /\ sort_key <$> fragments_of (extract_fragments Sample.digest Sample.ast_parse
                                                  Sample.re_finditer Sample.re_findall
                                                  Sample.open_read (fun _ => 0%nat)
                                                  0 1 [Sample.many] Sample.keep_all)
     = sort_key <$> fragments_of (extract_fragments Sample.digest Sample.ast_parse
                                                    Sample.re_finditer Sample.re_findall
                                                    Sample.open_read (fun n => n)
                                                    0 1 [Sample.many] Sample.keep_all).
Proof.
  apply (result_independent_of_completion_order Sample.digest Sample.ast_parse
           Sample.re_finditer Sample.re_findall Sample.open_read
           (fun _ => 0%nat) (fun n => n) 0 1 [Sample.many] Sample.keep_all).
  reflexivity.
Defined.

(** ** Views of a result *)

Section ResultViews.

Variable md5_hexdigest : string -> string.
Variable ast_parse : string -> option (list def_node).
Variable re_finditer : string -> string -> list (nat * string).
Variable re_findall : string -> string -> list string.
Variable open_read : string -> string -> read_outcome.
Variable completion : nat -> nat.
Variables t_start t_end : Q.

Local Abbreviation from_file :=
  (extract_from_file md5_hexdigest ast_parse re_finditer re_findall open_read).
Local Abbreviation run :=
  (extract_fragments md5_hexdigest ast_parse re_finditer re_findall open_read
                     completion t_start t_end).

(** A property of the fragments of every file that the stored hash does
    not affect holds for the fragments of every result. *)
Lemma result_forall (P : Fragment.t -> Prop) projects config :
  (forall file_path project f, f ∈ from_file file_path project config -> P f) ->
  (forall h f, P f -> P (Fragment.set_embedding_hash h f)) ->
  Forall P (fragments_of (run projects config)).
Proof.
  intros Hfile Hhash. apply Forall_forall. intros f.
  unfold extract_fragments, extract_fragments_parallel.
  set (units := work_units projects).
  set (runs := List.map (run_unit md5_hexdigest ast_parse re_finditer re_findall
                                  open_read config) units).
  assert (Hraw : forall raw, raw ≡ₚ concat runs -> forall g, g ∈ raw -> P g).
  { intros raw Hraw g Hg. rewrite Hraw in Hg.
    apply list_elem_of_In, in_concat in Hg as (gs & (u & <- & _)%in_map_iff & Hg).
    apply list_elem_of_In in Hg. by eapply Hfile. }
  assert (Hpost : forall raw, (forall g, g ∈ raw -> P g) ->
             forall g,
               g ∈ sort_desc
                     (if Config.skip_tests config
                      then List.filter (fun f => negb (Fragment.has_tests f))
                             (if Config.deduplicate config
                              then deduplicate_fragments md5_hexdigest raw else raw)
                      else (if Config.deduplicate config
                            then deduplicate_fragments md5_hexdigest raw else raw)) ->
               P g).
  { intros raw Hb g Hg. rewrite sort_desc_perm in Hg.
    assert (Hg' : g ∈ (if Config.deduplicate config
                       then deduplicate_fragments md5_hexdigest raw else raw)).
    { destruct (Config.skip_tests config); [|done].
      apply list_elem_of_In, filter_In in Hg as [Hg _]. by apply list_elem_of_In. }
    destruct (Config.deduplicate config); [|auto].
    apply deduplicate_elem in Hg' as (f0 & Hf0 & [->|[h ->]]); auto. }
  destruct (Config.parallel_scan config && (10 <? total_files projects)).
  - destruct (Config.max_workers config <=? 0); simpl; [by intros ?%elem_of_nil|].
    apply Hpost, Hraw. unfold as_completed. by rewrite as_completed_from_perm.
  - simpl. by apply Hpost, Hraw.
Qed.

Lemma extract_from_file_language file_path project config f :
  f ∈ from_file file_path project config ->
  language f = if String.eqb (Path.suffix file_path) ".py" then "Python"
               else "JavaScript/TypeScript".
Proof.
  unfold extract_from_file.
  destruct (safe_read_text _ _ _) as [code|]; [|by intros ?%elem_of_nil].
  destruct (negb (Str.truthy code)); [by intros ?%elem_of_nil|].
  destruct (String.eqb _ _).
  - unfold extract_python_fragments.
    destruct (ast_parse code) as [nodes|]; [|by intros ?%elem_of_nil].
    intros (node & _ & Hf)%list_elem_of_omap.
    apply python_fragment_fields in Hf as (Htype & _).
    unfold language. rewrite Htype. by destruct (node_kind node).
  - destruct (str_in _ _); [|by intros ?%elem_of_nil].
    unfold extract_js_fragments.
    intros (fs & (p & <- & Hp)%in_map_iff & Hf)%list_elem_of_In%in_concat.
    apply list_elem_of_In, list_elem_of_omap in Hf as (m & _ & Hf).
    apply js_fragment_fields in Hf as (Htype & _).
    unfold language. rewrite Htype.
    unfold patterns in Hp. simpl in Hp.
    destruct Hp as [<-|[<-|[<-|[<-|[]]]]]; reflexivity.
Qed.

(** X8. The language inferred for a fragment is the one of the file it was
    extracted from: Python for a [.py] file, JavaScript/TypeScript for a
    script. Hence every fragment of every result has one of these two
    languages, and the language set of a result holds no other entry, in
    particular never Unknown. *)
Theorem result_languages projects config :
  (forall file_path project,
      Forall (fun f => language f = if String.eqb (Path.suffix file_path) ".py"
                                    then "Python" else "JavaScript/TypeScript")
             (from_file file_path project config))
  /\ Forall (fun f => language f = "Python" \/ language f = "JavaScript/TypeScript")
            (fragments_of (run projects config))
  /\ list_to_set (language <$> fragments_of (run projects config))
     ⊆@{gset string} {[ "Python"; "JavaScript/TypeScript" ]}.
Proof.
  assert (Hall : Forall (fun f => language f = "Python"
                                  \/ language f = "JavaScript/TypeScript")
                        (fragments_of (run projects config))).
  { apply result_forall.
    - intros file_path project f Hf.
      rewrite (extract_from_file_language _ _ _ _ Hf).
      destruct (String.eqb _ _); auto.
    - intros h f Hf. exact Hf. }
  split; [|split; [done|]].
  - intros file_path project. apply Forall_forall. intros f.
    apply extract_from_file_language.
  - intros lang (f & -> & Hf)%elem_of_list_to_set%list_elem_of_fmap.
    rewrite Forall_forall in Hall. destruct (Hall f Hf) as [-> | ->]; set_solver.
Qed.

End ResultViews.

(** ** Aggregates of a result *)

Lemma fold_sum_bounds (g : Fragment.t -> Z) lo hi l acc :
  Forall (fun f => lo <= g f <= hi) l ->
  acc + lo * Z.of_nat (length l)
  <= fold_left (fun a f => a + g f) l acc
  <= acc + hi * Z.of_nat (length l).
Proof.
  intros H. revert acc. induction H as [|f l Hf _ IH]; intros acc; simpl; [lia|].
  specialize (IH (acc + g f)). lia.
Qed.

Lemma avg_quality_bounds lo hi r :
  ExtractionResult.fragments r <> [] ->
  Forall (fun f => lo <= Fragment.quality f <= hi) (ExtractionResult.fragments r) ->
  (inject_Z lo <= avg_quality r)%Q /\ (avg_quality r <= inject_Z hi)%Q.
Proof.
  unfold avg_quality. intros Hne Hall.
  destruct (ExtractionResult.fragments r) as [|f l] eqn:E; [done|].
  pose proof (fold_sum_bounds Fragment.quality lo hi (f :: l) 0 Hall) as Hsum.
  fold (sum_quality (f :: l)) in Hsum.
  set (n := Z.of_nat (length (f :: l))) in *.
  assert (Hn : (0 < inject_Z n)%Q).
  { change 0%Q with (inject_Z 0). rewrite <- Zlt_Qlt. unfold n. simpl. lia. }
  split.
  - apply Qle_shift_div_l; [done|].
    rewrite <- inject_Z_mult, <- Zle_Qle. lia.
  - apply Qle_shift_div_r; [done|].
    rewrite <- inject_Z_mult, <- Zle_Qle. lia.
Qed.

(** X9. The aggregates of a result follow the thresholds of the run: the
    total line count lies between [min_lines] and [max_lines] times the
    number of fragments, the average quality is 0 for an empty result and
    otherwise lies between 1 and 10 and is at least [min_quality]. *)
Theorem result_aggregates md5_hexdigest ast_parse re_finditer re_findall open_read
    completion t_start t_end projects config r :
  extract_fragments md5_hexdigest ast_parse re_finditer re_findall open_read
                    completion t_start t_end projects config = Returned r ->
  Config.min_lines config * Z.of_nat (length (ExtractionResult.fragments r))
  <= total_lines r
  <= Config.max_lines config * Z.of_nat (length (ExtractionResult.fragments r))
  /\ (ExtractionResult.fragments r = [] -> avg_quality r = 0%Q)
  /\ (ExtractionResult.fragments r <> [] ->
      (1 <= avg_quality r)%Q /\ (avg_quality r <= 10)%Q
      /\ (inject_Z (Config.min_quality config) <= avg_quality r)%Q).
Proof.
  intros Hrun.
  assert (Hwf : Forall (well_formed config) (ExtractionResult.fragments r)).
  { apply Forall_forall. intros f Hf.
    apply (result_well_formed md5_hexdigest ast_parse re_finditer re_findall
             open_read completion t_start t_end projects config).
    by rewrite Hrun. }
  split; [|split].
  - unfold total_lines.
    pose proof (fold_sum_bounds Fragment.lines (Config.min_lines config)
                  (Config.max_lines config) (ExtractionResult.fragments r) 0) as Hsum.
    simpl in Hsum. apply Hsum.
    eapply Forall_impl; [exact Hwf|]. intros f Hf. apply Hf.
  - intros Hnil. unfold avg_quality. by rewrite Hnil.
  - intros Hne.
    destruct (avg_quality_bounds 1 10 r Hne) as [H1 H10].
    { eapply Forall_impl; [exact Hwf|]. intros f Hf. apply Hf. }
    destruct (avg_quality_bounds (Config.min_quality config) 10 r Hne) as [Hmin _].
    { eapply Forall_impl; [exact Hwf|]. intros f Hf.
      destruct Hf as (? & ? & _). lia. }
    done.
Qed.

Lemma result_aggregates_witness :
  5 * Z.of_nat (length (ExtractionResult.fragments Sample.result))
  <= total_lines Sample.result
  <= 500 * Z.of_nat (length (ExtractionResult.fragments Sample.result))
  /\ (ExtractionResult.fragments Sample.result = [] -> avg_quality Sample.result = 0%Q)
  /\ (ExtractionResult.fragments Sample.result <> [] ->
      (1 <= avg_quality Sample.result)%Q /\ (avg_quality Sample.result <= 10)%Q
      /\ (inject_Z 5 <= avg_quality Sample.result)%Q).
Proof.
  apply (result_aggregates Sample.digest Sample.ast_parse Sample.re_finditer
           Sample.re_findall Sample.open_read Sample.completion 0 1
           [Sample.web; Sample.lib] Config.default Sample.result).
  vm_compute. reflexivity.
Defined.

(** ** String helpers *)

Lemma string_length_app s1 s2 :
  String.length (s1 +:+ s2) = (String.length s1 + String.length s2)%nat.
Proof. induction s1 as [|c s1 IH]; simpl; [done|]. by rewrite IH. Qed.

Lemma length_take_string n s :
  String.length (Str.take n s) = Nat.min n (String.length s).
Proof.
  unfold Str.take. revert n.
  induction s as [|c s IH]; intros [|n]; simpl; try done.
  by rewrite IH.
Qed.

(** X10. When the suffix fits into [max_len], [truncate_string] never
    returns more than [max_len] characters: a string that already fits is
    returned as it is, a longer one is cut to exactly [max_len] characters,
    the last of which are the suffix. When the suffix is longer than
    [max_len] the bound fails: the eight letters [abcdefgh] cut to 2 with
    the suffix [...] come out ten characters long. *)
Theorem truncate_string_fits s max_len suffix :
  Str.len suffix <= max_len ->
  Str.len (truncate_string s max_len suffix) <= max_len
  /\ (Str.len s <= max_len -> truncate_string s max_len suffix = s)
  /\ (max_len < Str.len s ->
      truncate_string s max_len suffix
      = Str.take (Z.to_nat (max_len - Str.len suffix)) s +:+ suffix
      /\ Str.len (truncate_string s max_len suffix) = max_len)
  /\ truncate_string "abcdefgh" 2 "..." = "abcdefg...".
Proof.
  intros Hsuffix. unfold truncate_string.
  destruct (Str.len s <=? max_len) eqn:Efit.
  - apply Z.leb_le in Efit. repeat split; first [lia | exfalso; lia].
  - apply Z.leb_gt in Efit.
    assert (Hcut : prefix_to s (max_len - Str.len suffix)
                   = Str.take (Z.to_nat (max_len - Str.len suffix)) s).
    { unfold prefix_to.
      destruct (max_len - Str.len suffix <? 0) eqn:Eneg;
        [apply Z.ltb_lt in Eneg; lia|].
      f_equal. unfold Str.len in *. lia. }
    assert (Hlen : Str.len (Str.take (Z.to_nat (max_len - Str.len suffix)) s +:+ suffix)
                   = max_len).
    { unfold Str.len in *. rewrite string_length_app, length_take_string. lia. }
    rewrite Hcut. repeat split; first [lia | exfalso; lia].
Qed.

Lemma truncate_string_fits_witness :
  Str.len (truncate_string "a long sentence to cut" 10 "...") <= 10
  /\ (Str.len "a long sentence to cut" <= 10 ->
      truncate_string "a long sentence to cut" 10 "..." = "a long sentence to cut")
  /\ (10 < Str.len "a long sentence to cut" ->
      truncate_string "a long sentence to cut" 10 "..."
      = Str.take (Z.to_nat (10 - Str.len "...")) "a long sentence to cut" +:+ "..."
      /\ Str.len (truncate_string "a long sentence to cut" 10 "...") = 10)
  /\ truncate_string "abcdefgh" 2 "..." = "abcdefg...".
Proof.
  apply (truncate_string_fits "a long sentence to cut" 10 "...").
  vm_compute. discriminate.
Defined.

(** ** Cache and export file names *)









(** ** Stripping and sanitizing *)

Lemma append_cons c s1 s2 : String c s1 +:+ s2 = String c (s1 +:+ s2).
Proof. reflexivity. Qed.

Lemma string_app_assoc s1 s2 s3 : (s1 +:+ s2) +:+ s3 = s1 +:+ (s2 +:+ s3).
Proof.
  induction s1 as [|c s1 IH]; [done|]. by rewrite !append_cons, IH.
Qed.

Lemma rev_app_spec s1 s2 : String.rev_app s1 s2 = String.rev s1 +:+ s2.
Proof.
  unfold String.rev. revert s2.
  induction s1 as [|c s1 IH]; intros s2; simpl; [done|].
  rewrite (IH (String c s2)), (IH (String c "")).
  by rewrite string_app_assoc.
Qed.

Lemma rev_cons c s : String.rev (String c s) = String.rev s +:+ String c "".
Proof. unfold String.rev at 1. simpl. apply rev_app_spec. Qed.

Lemma rev_snoc s c : String.rev (s +:+ String c "") = String c (String.rev s).
Proof.
  induction s as [|d s IH]; [done|].
  by rewrite append_cons, !rev_cons, IH.
Qed.

Lemma rev_involutive s : String.rev (String.rev s) = s.
Proof.
  induction s as [|c s IH]; [done|]. by rewrite rev_cons, rev_snoc, IH.
Qed.

Lemma length_rev s : String.length (String.rev s) = String.length s.
Proof.
  induction s as [|c s IH]; [done|].
  rewrite rev_cons, string_length_app, IH. simpl. lia.
Qed.

(** The characters of a string, and what the string operations do to them. *)
Lemma chars_app s1 s2 :
  list_ascii_of_string (s1 +:+ s2)
  = list_ascii_of_string s1 ++ list_ascii_of_string s2.
Proof.
  induction s1 as [|c s1 IH]; [done|]. rewrite append_cons. simpl. by rewrite IH.
Qed.

Lemma chars_rev s :
  list_ascii_of_string (String.rev s) = rev (list_ascii_of_string s).
Proof.
  induction s as [|c s IH]; [done|]. rewrite rev_cons, chars_app, IH. done.
Qed.

Lemma chars_take n s :
  list_ascii_of_string (Str.take n s) = take n (list_ascii_of_string s).
Proof.
  unfold Str.take. revert n.
  induction s as [|c s IH]; intros [|n]; simpl; try done. by rewrite IH.
Qed.

Lemma lstrip_Forall (P : ascii -> Prop) s :
  Forall P (list_ascii_of_string s) -> Forall P (list_ascii_of_string (Str.lstrip s)).
Proof.
  induction s as [|c s IH]; simpl; [done|]. intros H.
  destruct (Str.isspace c); [|done]. apply IH. by inversion H.
Qed.

Lemma strip_Forall (P : ascii -> Prop) s :
  Forall P (list_ascii_of_string s) -> Forall P (list_ascii_of_string (Str.strip s)).
Proof.
  intros H. unfold Str.strip, Str.rstrip.
  rewrite chars_rev. apply Forall_rev, lstrip_Forall.
  rewrite chars_rev. by apply Forall_rev, lstrip_Forall.
Qed.

Lemma length_lstrip s : (String.length (Str.lstrip s) <= String.length s)%nat.
Proof.
  induction s as [|c s IH]; simpl; [done|].
  destruct (Str.isspace c); simpl; lia.
Qed.

Lemma length_strip s : (String.length (Str.strip s) <= String.length s)%nat.
Proof.
  unfold Str.strip, Str.rstrip. rewrite length_rev.
  etrans; [apply length_lstrip|]. rewrite length_rev. apply length_lstrip.
Qed.

Lemma lstrip_starts_solid s : starts_solid (Str.lstrip s).
Proof.
  induction s as [|c s IH]; simpl; [done|].
  destruct (Str.isspace c) eqn:E; [done|]. simpl. done.
Qed.

Lemma lstrip_id s : starts_solid s -> Str.lstrip s = s.
Proof. destruct s as [|c s]; simpl; [done|]. by intros ->. Qed.

Lemma lstrip_snoc_solid s c :
  Str.isspace c = false ->
  exists w, Str.lstrip (s +:+ String c "") = w +:+ String c "".
Proof.
  intros Hc. induction s as [|d s [w IH]].
  - exists "". simpl. by rewrite Hc.
  - rewrite append_cons. simpl.
    destruct (Str.isspace d); [by exists w|].
    by exists (String d s).
Qed.

Lemma rstrip_starts_solid s : starts_solid s -> starts_solid (Str.rstrip s).
Proof.
  destruct s as [|c s]; [done|]. simpl. intros Hc.
  unfold Str.rstrip. rewrite rev_cons.
  destruct (lstrip_snoc_solid (String.rev s) c Hc) as [w ->].
  by rewrite rev_snoc.
Qed.

Lemma rstrip_rstrip s : Str.rstrip (Str.rstrip s) = Str.rstrip s.
Proof.
  unfold Str.rstrip. rewrite rev_involutive.
  by rewrite (lstrip_id (Str.lstrip _)) by apply lstrip_starts_solid.
Qed.

Lemma strip_strip s : Str.strip (Str.strip s) = Str.strip s.
Proof.
  unfold Str.strip.
  rewrite (lstrip_id (Str.rstrip _))
    by apply rstrip_starts_solid, lstrip_starts_solid.
  apply rstrip_rstrip.
Qed.

(** The nine replacements amount to one pass with [sanitize_char]. *)
Lemma replace_char_map char new s :
  replace_char char new s = map_chars (fun c => if Ascii.eqb c char then new else c) s.
Proof. induction s as [|c s IH]; simpl; [done|]. by rewrite IH. Qed.

Lemma map_chars_compose f g s : map_chars f (map_chars g s) = map_chars (fun c => f (g c)) s.
Proof. induction s as [|c s IH]; simpl; [done|]. by rewrite IH. Qed.

Lemma map_chars_ext f g s : (forall c, f c = g c) -> map_chars f s = map_chars g s.
Proof. intros H. induction s as [|c s IH]; simpl; [done|]. by rewrite IH, H. Qed.

Lemma replacements_one_pass name :
  fold_left (fun name char => replace_char char "_"%char name)
            (list_ascii_of_string invalid_chars) name
  = map_chars sanitize_char name.
Proof.
  let chars := eval vm_compute in (list_ascii_of_string invalid_chars) in
  change (list_ascii_of_string invalid_chars) with chars.
  cbn [fold_left].
  rewrite !replace_char_map, !map_chars_compose.
  apply map_chars_ext. intros c.
  destruct c as [[] [] [] [] [] [] [] []]; reflexivity.
Qed.

Lemma sanitize_char_idem c : sanitize_char (sanitize_char c) = sanitize_char c.
Proof. destruct c as [[] [] [] [] [] [] [] []]; reflexivity. Qed.

Lemma sanitize_char_valid c :
  sanitize_char c = c <-> Str.contains (String c "") invalid_chars = false.
Proof. destruct c as [[] [] [] [] [] [] [] []]; split; (reflexivity || discriminate). Qed.

Lemma map_chars_chars f s :
  list_ascii_of_string (map_chars f s) = f <$> list_ascii_of_string s.
Proof. induction s as [|c s IH]; simpl; [done|]. by rewrite IH. Qed.

Lemma map_chars_id f s :
  Forall (fun c => f c = c) (list_ascii_of_string s) -> map_chars f s = s.
Proof.
  induction s as [|c s IH]; simpl; [done|].
  intros H. inversion_clear H. by rewrite IH; [congruence|].
Qed.

Lemma length_map_chars f s : String.length (map_chars f s) = String.length s.
Proof. induction s as [|c s IH]; simpl; [done|]. by rewrite IH. Qed.

Lemma sanitize_filename_spec name :
  sanitize_filename name
  = Str.strip (let cleaned := map_chars sanitize_char name in
               if 200 <? Str.len cleaned then Str.take 200 cleaned else cleaned).
Proof. unfold sanitize_filename. by rewrite replacements_one_pass. Qed.

Lemma sanitize_filename_valid name :
  Forall (fun c => sanitize_char c = c) (list_ascii_of_string (sanitize_filename name)).
Proof.
  rewrite sanitize_filename_spec. cbv zeta. apply strip_Forall.
  assert (H : Forall (fun c => sanitize_char c = c)
                     (list_ascii_of_string (map_chars sanitize_char name))).
  { rewrite map_chars_chars. apply Forall_fmap, Forall_forall.
    intros c _. apply sanitize_char_idem. }
  destruct (200 <? _); [|done]. rewrite chars_take. by apply Forall_take.
Qed.

Lemma sanitize_filename_length name :
  (String.length (sanitize_filename name) <= 200)%nat
  /\ (String.length (sanitize_filename name) <= String.length name)%nat.
Proof.
  rewrite sanitize_filename_spec. cbv zeta.
  pose proof (length_map_chars sanitize_char name) as Hlen.
  destruct (200 <? Str.len (map_chars sanitize_char name)) eqn:E.
  - apply Z.ltb_lt in E. unfold Str.len in E.
    pose proof (length_strip (Str.take 200 (map_chars sanitize_char name))) as Hs.
    rewrite length_take_string in Hs. lia.
  - apply Z.ltb_ge in E. unfold Str.len in E.
    pose proof (length_strip (map_chars sanitize_char name)). lia.
Qed.

(** X12. [sanitize_filename] returns at most 200 characters, none of them
    one of the nine characters it replaces, with no blank at either end;
    applied to its own result it changes nothing. *)
Theorem sanitize_filename_is_safe name :
  (String.length (sanitize_filename name) <= 200)%nat
  /\ Forall (fun c => Str.contains (String c "") invalid_chars = false)
            (list_ascii_of_string (sanitize_filename name))
  /\ Str.strip (sanitize_filename name) = sanitize_filename name
  /\ sanitize_filename (sanitize_filename name) = sanitize_filename name.
Proof.
  pose proof (sanitize_filename_valid name) as Hvalid.
  pose proof (sanitize_filename_length name) as [Hlen _].
  assert (Hstrip : Str.strip (sanitize_filename name) = sanitize_filename name).
  { rewrite sanitize_filename_spec. apply strip_strip. }
  split; [done|]. split; [|split; [done|]].
  - eapply Forall_impl; [exact Hvalid|]. intros c. apply sanitize_char_valid.
  - rewrite (sanitize_filename_spec (sanitize_filename name)). cbv zeta.
    rewrite (map_chars_id _ _ Hvalid).
    assert (E : (200 <? Str.len (sanitize_filename name)) = false).
    { apply Z.ltb_ge. unfold Str.len. lia. }
    by rewrite E.
Qed.

(** ** Validated configurations *)

(** X13. A configuration that passes [validate] never makes the extraction
    raise: the pool is created with at least one worker, so a result is
    returned, whatever the projects. Every fragment of that result has at
    least one line and a quality of at least 1 that is no less than the
    configured minimum. *)
Theorem validated_config_extracts md5_hexdigest ast_parse re_finditer re_findall
    open_read completion t_start t_end projects config :
  Config.validate config = [] ->
  exists r,
    extract_fragments md5_hexdigest ast_parse re_finditer re_findall open_read
                      completion t_start t_end projects config = Returned r
    /\ Forall (fun f => 1 <= Fragment.lines f
                        /\ 1 <= Config.min_quality config <= Fragment.quality f)
              (ExtractionResult.fragments r).
Proof.
  intros Hvalid.
  apply validate_nil in Hvalid as (_ & _ & Hquality & Hlines & _ & Hworkers & _).
  destruct (extract_fragments md5_hexdigest ast_parse re_finditer re_findall
              open_read completion t_start t_end projects config) as [r|e] eqn:Hrun.
  - exists r. split; [done|]. apply Forall_forall. intros f Hf.
    assert (Hwf : well_formed config f).
    { apply (result_well_formed md5_hexdigest ast_parse re_finditer re_findall
               open_read completion t_start t_end projects config).
      by rewrite Hrun. }
    destruct Hwf as (_ & ? & ? & _). lia.
  - exfalso.
    pose proof (extract_fragments_raises md5_hexdigest ast_parse re_finditer
                  re_findall open_read completion t_start t_end projects config) as Hr.
    rewrite Hrun in Hr. simpl in Hr. symmetry in Hr.
    apply andb_true_iff in Hr as [_ Hr]. apply Z.leb_le in Hr. lia.
Qed.

Lemma validated_config_extracts_witness :
  exists r,
    extract_fragments Sample.digest Sample.ast_parse Sample.re_finditer
                      Sample.re_findall Sample.open_read Sample.completion 0 1
                      [Sample.many] Config.default = Returned r
    /\ Forall (fun f => 1 <= Fragment.lines f
                        /\ 1 <= Config.min_quality Config.default <= Fragment.quality f)
              (ExtractionResult.fragments r).
Proof.
  apply (validated_config_extracts Sample.digest Sample.ast_parse Sample.re_finditer
           Sample.re_findall Sample.open_read Sample.completion 0 1
           [Sample.many] Config.default).
  reflexivity.
Defined.

(** ** The test filter *)

(** X14. The test filter removes the flagged fragments and changes nothing
    else: the result of a run with [skip_tests] set is the result of the
    same run without it, minus the fragments whose [has_tests] is set, in
    the same order. No fragment of such a result has [has_tests] set. *)
Theorem skip_tests_only_removes_tests md5_hexdigest ast_parse re_finditer re_findall
    open_read completion t_start t_end projects config :
  fragments_of (extract_fragments md5_hexdigest ast_parse re_finditer re_findall
                                  open_read completion t_start t_end projects
                                  (set_skip_tests true config))
  = List.filter (fun f => negb (Fragment.has_tests f))
      (fragments_of (extract_fragments md5_hexdigest ast_parse re_finditer re_findall
                                       open_read completion t_start t_end projects
                                       (set_skip_tests false config)))
  /\ Forall (fun f => Fragment.has_tests f = false)
       (fragments_of (extract_fragments md5_hexdigest ast_parse re_finditer re_findall
                                        open_read completion t_start t_end projects
                                        (set_skip_tests true config))).
Proof.
  assert (Hrun : forall b units,
             List.map (run_unit md5_hexdigest ast_parse re_finditer re_findall
                                open_read (set_skip_tests b config)) units
             = List.map (run_unit md5_hexdigest ast_parse re_finditer re_findall
                                  open_read config) units).
  { intros b units. apply map_ext. intros u. destruct config. reflexivity. }
  assert (Heq : fragments_of (extract_fragments md5_hexdigest ast_parse re_finditer
                                re_findall open_read completion t_start t_end projects
                                (set_skip_tests true config))
                = List.filter (fun f => negb (Fragment.has_tests f))
                    (fragments_of (extract_fragments md5_hexdigest ast_parse
                                     re_finditer re_findall open_read completion
                                     t_start t_end projects
                                     (set_skip_tests false config)))).
  { unfold extract_fragments, extract_fragments_parallel.
    cbn [set_skip_tests Config.skip_tests Config.deduplicate Config.parallel_scan
         Config.max_workers].
    rewrite !Hrun.
    destruct (Config.parallel_scan config && (10 <? total_files projects)).
    - destruct (Config.max_workers config <=? 0); [done|].
      cbn [fragments_of ExtractionResult.fragments]. by rewrite filter_sort_desc.
    - cbn [fragments_of ExtractionResult.fragments]. by rewrite filter_sort_desc. }
  split; [done|].
  rewrite Heq. apply Forall_forall. intros f Hf.
  apply list_elem_of_In, filter_In in Hf as [_ Hf].
  by apply negb_true_iff.
Qed.

(** ** Reading a file *)

(** The fallback loop returns the text of the first encoding that reads,
    provided every encoding before it failed to decode. *)
Lemma try_encodings_Some open_read path encodings text :
  try_encodings open_read path encodings = Some text
  <-> exists tried enc rest,
        encodings = tried ++ enc :: rest
        /\ Forall (fun e => open_read path e = UnicodeDecodeError) tried
        /\ open_read path enc = ReadOk text.
Proof.
  induction encodings as [|e encodings IH]; simpl.
  - split; [done|]. intros (tried & enc & rest & H & _). by destruct tried.
  - destruct (open_read path e) as [t| |] eqn:E.
    + split.
      * intros [= ->]. exists [], e, encodings. by repeat split.
      * intros ([|e' tried] & enc & rest & H & Htried & Hok); simplify_eq/=.
        -- congruence.
        -- inversion_clear Htried. congruence.
    + rewrite IH. split.
      * intros (tried & enc & rest & -> & Htried & Hok).
        exists (e :: tried), enc, rest. repeat split; [|done]. by constructor.
      * intros ([|e' tried] & enc & rest & H & Htried & Hok); simplify_eq/=.
        -- congruence.
        -- inversion_clear Htried. by exists tried, enc, rest.
    + split; [done|].
      intros ([|e' tried] & enc & rest & H & Htried & Hok); simplify_eq/=.
      * congruence.
      * inversion_clear Htried. congruence.
Qed.

(** X15. [safe_read_text] returns a text exactly when one of the encodings
    [encoding], utf-8, latin-1, cp1252 reads the file and every encoding
    tried before it failed to decode; the text is the one read under that
    encoding. An error that is no decoding error ends the attempts: when
    the first encoding fails that way nothing is returned, whatever the
    later encodings would read. *)
Theorem safe_read_text_fallback open_read path encoding :
  (forall text,
      safe_read_text open_read path encoding = Some text
      <-> exists tried enc rest,
            [encoding; "utf-8"; "latin-1"; "cp1252"] = tried ++ enc :: rest
            /\ Forall (fun e => open_read path e = UnicodeDecodeError) tried
            /\ open_read path enc = ReadOk text)
  /\ (open_read path encoding = OtherError ->
      safe_read_text open_read path encoding = None)
  /\ (forall text,
         open_read path encoding = ReadOk text ->
         safe_read_text open_read path encoding = Some text).
Proof.
  split; [|split].
  - intros text. apply try_encodings_Some.
  - intros H. unfold safe_read_text. simpl. by rewrite H.
  - intros text H. unfold safe_read_text. simpl. by rewrite H.
Qed.

(** ** The test bonus and the test flag *)

Lemma assess_type_irrelevant code lang t1 t2 :
  Str.contains "test" (Str.lower t1) = Str.contains "test" (Str.lower t2) ->
  assess_quality_enhanced code lang t1 = assess_quality_enhanced code lang t2.
Proof.
  intros H. unfold assess_quality_enhanced. by rewrite H.
Qed.

(** X16. The score depends on the fragment type only through the test
    bonus, and no type the extractors pass earns it: for each of the three
    Python types and the four script types the score and the metrics are
    those of the same text under a type that does not mention tests. *)
Theorem test_bonus_never_granted :
  (forall k code lang,
      assess_quality_enhanced code lang (frag_type_of k)
      = assess_quality_enhanced code lang "")
  /\ Forall (fun p => forall code lang,
                 assess_quality_enhanced code lang (snd p)
                 = assess_quality_enhanced code lang "")
            patterns.
Proof.
  split.
  - intros k code lang. apply assess_type_irrelevant. by destruct k.
  - unfold patterns. repeat constructor; intros code lang;
      by apply assess_type_irrelevant.
Qed.

Lemma python_fragment_flags md5_hexdigest lines file_path project_name config node f :
  python_fragment md5_hexdigest lines file_path project_name config node = Some f ->
  Fragment.has_tests f
  = Str.contains "test" (Str.lower (Fragment.code f))
    || Str.contains "spec" (Str.lower (Fragment.code f))
    || Str.contains "describe" (Str.lower (Fragment.code f))
  /\ Fragment.has_error_handling f
     = any_in ["try"; "catch"; "except"; "error"; "throw"] (Str.lower (Fragment.code f)).
Proof.
  unfold python_fragment.
  destruct (_ && _); [|done].
  destruct (too_short_or_too_long _ _); [done|].
  destruct (assess_quality_enhanced _ _ _) as [quality metrics] eqn:Escore.
  destruct (quality <? Config.min_quality config); [done|].
  intros [= <-]. cbn [Fragment.has_tests Fragment.has_error_handling Fragment.code].
  pose proof (assess_metrics
                (Str.join nl (slice lines (default 1 (lineno node) - 1)
                                (default (default 1 (lineno node) - 1 + 1)
                                         (end_lineno node))))
                "python" (frag_type_of (node_kind node))) as Hm.
  rewrite Escore in Hm. cbn [snd] in Hm.
  destruct Hm as (_ & _ & _ & _ & He & Ht).
  unfold get_bool. by rewrite He, Ht.
Qed.

(** X17. A Python fragment is flagged as a test by its text alone: the
    flag is set exactly when the lower-cased code contains [test], [spec]
    or [describe] anywhere, inside a longer word too. Likewise the error
    handling flag is set exactly when it contains one of [try], [catch],
    [except], [error], [throw]. *)
Theorem python_flags_by_substring md5_hexdigest ast_parse code file_path project_name
    config :
  Forall (fun f =>
            Fragment.has_tests f
            = Str.contains "test" (Str.lower (Fragment.code f))
              || Str.contains "spec" (Str.lower (Fragment.code f))
              || Str.contains "describe" (Str.lower (Fragment.code f))
            /\ Fragment.has_error_handling f
               = any_in ["try"; "catch"; "except"; "error"; "throw"]
                        (Str.lower (Fragment.code f)))
         (extract_python_fragments md5_hexdigest ast_parse code file_path
                                   project_name config).
Proof.
  apply Forall_forall. intros f.
  unfold extract_python_fragments.
  destruct (ast_parse code) as [nodes|]; [|by intros ?%elem_of_nil].
  intros (node & _ & Hf)%list_elem_of_omap.
  by eapply python_fragment_flags.
Qed.

(** ** The span of a Python fragment *)

Lemma length_slice {A} (l : list A) start end_ :
  0 <= start <= end_ -> end_ <= Z.of_nat (length l) ->
  Z.of_nat (length (slice l start end_)) = end_ - start.
Proof.
  intros Hs He. unfold slice.
  destruct (end_ <? 0) eqn:E; [apply Z.ltb_lt in E; lia|].
  rewrite length_take, length_drop. lia.
Qed.

Lemma python_fragment_span md5_hexdigest lines file_path project_name config node f :
  python_fragment md5_hexdigest lines file_path project_name config node = Some f ->
  1 <= Fragment.start_line f <= Z.of_nat (length lines)
  /\ Fragment.end_line f <= Z.of_nat (length lines)
  /\ Fragment.code f
     = Str.join nl (slice lines (Fragment.start_line f - 1) (Fragment.end_line f))
  /\ Fragment.lines f
     = Z.of_nat (length (slice lines (Fragment.start_line f - 1) (Fragment.end_line f)))
  /\ (Fragment.start_line f <= Fragment.end_line f ->
      Fragment.lines f = Fragment.end_line f - Fragment.start_line f + 1).
Proof.
  unfold python_fragment.
  destruct (_ && _) eqn:Erange; [|done].
  destruct (too_short_or_too_long _ _); [done|].
  destruct (assess_quality_enhanced _ _ _) as [quality metrics].
  destruct (quality <? Config.min_quality config); [done|].
  intros [= <-].
  cbn [Fragment.start_line Fragment.end_line Fragment.code Fragment.lines].
  apply andb_true_iff in Erange as [Erange Hend].
  apply andb_true_iff in Erange as [Hlo Hhi].
  apply Z.leb_le in Hlo, Hend. apply Z.ltb_lt in Hhi.
  set (start := default 1 (lineno node) - 1) in *.
  set (end_ := default (start + 1) (end_lineno node)) in *.
  replace (start + 1 - 1) with start by lia.
  repeat split; try done; try lia.
  intros Hle. rewrite length_slice by lia. lia.
Qed.

(** X18. The location recorded for a Python fragment matches its text:
    the start line lies inside the file, the end line is not past its last
    line, the code is the file's lines from the start line to the end line
    joined by newlines, and the line count is the number of those lines,
    namely [end_line - start_line + 1] whenever the end is not before the
    start. *)
Theorem python_fragment_location md5_hexdigest ast_parse code file_path project_name
    config :
  Forall (fun f =>
            1 <= Fragment.start_line f <= Z.of_nat (length (Str.splitlines code))
            /\ Fragment.end_line f <= Z.of_nat (length (Str.splitlines code))
            /\ Fragment.code f
               = Str.join nl (slice (Str.splitlines code)
                                    (Fragment.start_line f - 1) (Fragment.end_line f))
            /\ Fragment.lines f
               = Z.of_nat (length (slice (Str.splitlines code)
                                         (Fragment.start_line f - 1)
                                         (Fragment.end_line f)))
            /\ (Fragment.start_line f <= Fragment.end_line f ->
                Fragment.lines f = Fragment.end_line f - Fragment.start_line f + 1))
         (extract_python_fragments md5_hexdigest ast_parse code file_path
                                   project_name config).
Proof.
  apply Forall_forall. intros f.
  unfold extract_python_fragments.
  destruct (ast_parse code) as [nodes|]; [|by intros ?%elem_of_nil].
  intros (node & _ & Hf)%list_elem_of_omap.
  by eapply python_fragment_span.
Qed.
